(** * Sales document analysis agent: router, query handlers and header repair

    A shallow embedding of
      - [src/advanced_sales_agent.py]: [router], [get_product_sales],
        [get_top_products], [get_monthly_sales], [call_tool],
        [update_state], [generate_final_answer], [run_agent];
      - [src/basic_sales_agent.py]: [get_product_total_sales] and the
        graph around it;
      - [src/sales_plot_agent.py]: [plot_product_sales] and the graph
        around it;
      - [src/sales_data_loader.py]: [load_excel_data], its header loop
        and its pass over the date columns.

    Conventions of the embedding.

    - A Python [str] is a Rocq [string]; a character is the code point it
      denotes, so the development covers text whose code points are below
      256.  [lower] is [str.lower] on that range.
    - A cell of the frame is a Python object: a [str], an [int] (an exact
      integer), or a [float] (a binary64 number, as the standard
      library's [spec_float] with 53 bits of precision specifies it); the
      missing value is the float NaN.
    - A [DataFrame] is a list of column labels, the dtype of each column
      and a list of rows.  Two dtypes are told apart: [object], the
      dtype of every column that holds a [str] (so of every column that
      [read_excel(header=None)] reads under a text header), and the
      numeric dtypes.  The row index plays no part in the handlers (every
      result goes through [to_dict(orient="records")]) and is left out.
      The pandas calls are modelled value by value after pandas 2:
      [sum(axis=1)] on a frame with an [object] column replaces NaN by 0
      and adds the cells of a row from left to right with Python's [+],
      on a numeric frame it is numpy's sum, an interface ([ArraySum]);
      [nlargest(n, col)] rejects a column of dtype [object] and keeps the
      first occurrences on ties;
      [sort_values(col, ascending=False)] runs the default
      [kind="quicksort"], which the documentation does not make stable, so
      it is an interface ([SortValues]) of which [sort_contract] is
      assumed: "a permutation, in order when the comparison is a total
      preorder on the data".
    - Python exceptions are the [Raise] outcome.
    - The frame held in [state["data"]] is an object shared by reference:
      frames live in a store, [copy] allocates, [data[label] = values]
      updates in place. *)

From Stdlib Require Import QArith Qround Qabs Permutation Sorted SpecFloat.
From Stdlib Require OrderedTypeEx.
From stdpp Require Import base list strings gmap pretty sorting.

Open Scope string_scope.

(* ================================================================== *)
(** * Python strings *)

(** [str.lower] on one code point below 256: [A-Z] and the capital
    letters of Latin-1 (U+00C0-U+00DE without the multiplication sign
    U+00D7) move up by 32. *)
Definition lower_char (c : Ascii.ascii) : Ascii.ascii :=
  let n := Ascii.nat_of_ascii c in
  if ((65 <=? n) && (n <=? 90))%nat
     || ((192 <=? n) && (n <=? 222) && negb (n =? 215))%nat
  then Ascii.ascii_of_nat (n + 32)
  else c.

(** [s.lower()] *)
Fixpoint lower (s : string) : string :=
  match s with
  | EmptyString => EmptyString
  | String c s' => String (lower_char c) (lower s')
  end.

(** [s.startswith(p)] *)
Fixpoint startswith (p s : string) : bool :=
  match p, s with
  | EmptyString, _ => true
  | String _ _, EmptyString => false
  | String a p', String b s' => Ascii.eqb a b && startswith p' s'
  end.

(** [needle in hay] on two strings: [needle] occurs in [hay] as a
    contiguous run of characters. *)
Fixpoint py_in (needle hay : string) : bool :=
  startswith needle hay
  || match hay with
     | EmptyString => false
     | String _ hay' => py_in needle hay'
     end.

(** The proposition [py_in] decides. *)
Definition occurs_in (needle hay : string) : Prop :=
  exists pre post, hay = pre ++ needle ++ post.

(** [\d] on code points below 256: the ten ASCII digits. *)
Definition is_digit (c : Ascii.ascii) : bool :=
  let n := Ascii.nat_of_ascii c in ((48 <=? n) && (n <=? 57))%nat.

Definition newline : Ascii.ascii := Ascii.ascii_of_nat 10.
Definition hyphen : Ascii.ascii := Ascii.ascii_of_nat 45.

(** [re.match(r"^\d{4}-\d{2}$", col)]: four digits, a hyphen, two
    digits, and then the end of the string; Python's [$] also matches
    just before a final newline. *)
Definition re_match_month (col : string) : bool :=
  match col with
  | String y1 (String y2 (String y3 (String y4
      (String h (String m1 (String m2 rest)))))) =>
      is_digit y1 && is_digit y2 && is_digit y3 && is_digit y4
      && Ascii.eqb h hyphen
      && is_digit m1 && is_digit m2
      && match rest with
         | EmptyString => true
         | String c EmptyString => Ascii.eqb c newline
         | _ => false
         end
  | _ => false
  end.

(** What the pattern means: the canonical period key [YYYY-MM]. *)
Definition period_key (col : string) : Prop :=
  exists y1 y2 y3 y4 m1 m2,
    col = String y1 (String y2 (String y3 (String y4
            (String hyphen (String m1 (String m2 EmptyString))))))
    /\ is_digit y1 = true /\ is_digit y2 = true /\ is_digit y3 = true
    /\ is_digit y4 = true /\ is_digit m1 = true /\ is_digit m2 = true.

(* ================================================================== *)
(** * Python values and exceptions *)

Inductive exn :=
| KeyError
| TypeError
| ValueError
| IndexError
| OverflowError
| AttributeError
| DanglingReference.
(** [DanglingReference] has no Python counterpart: a Python reference
    always denotes an object.  It is the outcome of reading a location
    the store does not hold. *)

Inductive outcome (A : Type) :=
| Return (a : A)
| Raise (e : exn).
Arguments Return {A} a.
Arguments Raise {A} e.

#[global] Instance outcome_ret : MRet outcome := fun A a => Return a.
#[global] Instance outcome_bind : MBind outcome := fun A B f m =>
  match m with
  | Return a => f a
  | Raise e => Raise e
  end.

(** ** Numbers *)

(** The two parameters of binary64. *)
Definition prec : Z := 53.
Definition emax : Z := 1024.

(** The double [m * 2^e], when it is one (the nearest double
    otherwise). *)
Definition dyadic (m e : Z) : spec_float := binary_normalize prec emax m e false.

(** [float(z)] of an [int]: the nearest double, a tie going to the even
    one; an [int] beyond the range of the doubles raises. *)
Definition float_of_int (z : Z) : outcome spec_float :=
  match dyadic z 0 with
  | S754_infinity _ => Raise OverflowError
  | f => Return f
  end.

(** The rational a finite double denotes. *)
Definition float_value (f : spec_float) : Q :=
  match f with
  | S754_finite s m e =>
      let magnitude :=
        match e with
        | Zneg k => Qmake (Zpos m) (Pos.pow 2 k)
        | _ => inject_Z (Zpos m * 2 ^ e)
        end in
      if s then Qopp magnitude else magnitude
  | _ => 0
  end.

(** A cell: a [str], an [int], or a [float]. *)
Inductive cell :=
| CStr (s : string)
| CInt (z : Z)
| CFloat (f : spec_float).

(** The missing value. *)
Abbreviation CNaN := (CFloat S754_nan).

(** [str(x)] of a finite [float] is its shortest decimal form that reads
    back as the same double; this rendering is an interface. *)
Class NumRepr := repr_num : spec_float -> string.

Section Values.
Context `{NumRepr}.

(** [str(x)]; also what an f-string prints for [{x}]. *)
Definition py_str (c : cell) : string :=
  match c with
  | CStr s => s
  | CInt z => pretty z
  | CFloat S754_nan => "nan"
  | CFloat (S754_infinity s) => if s then "-inf" else "inf"
  | CFloat f => repr_num f
  end.

End Values.

Definition is_nan (c : cell) : bool :=
  match c with CNaN => true | _ => false end.
Definition is_str (c : cell) : bool :=
  match c with CStr _ => true | _ => false end.
Definition is_num (c : cell) : bool :=
  match c with CStr _ => false | _ => true end.

(** [bool(x)]: the empty string and the zeros are false, NaN is true. *)
Definition truthy (c : cell) : bool :=
  match c with
  | CStr s => negb (String.eqb s "")
  | CInt z => negb (Z.eqb z 0)
  | CFloat (S754_zero _) => false
  | CFloat _ => true
  end.

(** Python compares an [int] and a [float] by the numbers they denote.
    A number that is not NaN is placed by its rank (below, among or
    above the finite numbers) and its value. *)
Definition num_rank (c : cell) : Z :=
  match c with
  | CFloat (S754_infinity true) => (-1)
  | CFloat (S754_infinity false) => 1
  | _ => 0
  end.

Definition num_value (c : cell) : Q :=
  match c with
  | CInt z => inject_Z z
  | CFloat f => float_value f
  | CStr _ => 0
  end.

Definition num_eqb (a b : cell) : bool :=
  (num_rank a =? num_rank b)%Z && Qeq_bool (num_value a) (num_value b).

Definition num_leb (a b : cell) : bool :=
  (num_rank a <? num_rank b)%Z
  || ((num_rank a =? num_rank b)%Z && Qle_bool (num_value a) (num_value b)).

(** [a == b]: NaN equals nothing, itself included; a [str] equals no
    number. *)
Definition py_eq (a b : cell) : bool :=
  match a, b with
  | CStr s, CStr t => String.eqb s t
  | CStr _, _ | _, CStr _ => false
  | _, _ => negb (is_nan a) && negb (is_nan b) && num_eqb a b
  end.

(** [a + b]: two [int]s add exactly, two [float]s as doubles; an [int]
    next to a [float] is converted first; a [str] joins a [str] only. *)
Definition py_add (a b : cell) : outcome cell :=
  match a, b with
  | CStr s, CStr t => Return (CStr (s ++ t))
  | CInt x, CInt y => Return (CInt (x + y))
  | CInt x, CFloat g =>
      f ← float_of_int x; Return (CFloat (SFadd prec emax f g))
  | CFloat f, CInt y =>
      g ← float_of_int y; Return (CFloat (SFadd prec emax f g))
  | CFloat f, CFloat g => Return (CFloat (SFadd prec emax f g))
  | _, _ => Raise TypeError
  end.

(** [a <= b] between two cells that Python can compare and that are not
    NaN. *)
Definition cell_leb (a b : cell) : bool :=
  match a, b with
  | CStr s, CStr t => String.leb s t
  | CStr _, _ | _, CStr _ => false
  | _, _ => num_leb a b
  end.

(** Round to the nearest integer, an exact tie to the even one. *)
Definition round_half_even (q : Q) : Z :=
  let f := Qfloor q in
  match ((q - inject_Z f) ?= (1 # 2))%Q with
  | Lt => f
  | Gt => (f + 1)%Z
  | Eq => if Z.even f then f else (f + 1)%Z
  end.

Definition two_digits (n : Z) : string :=
  if (n <? 10)%Z then "0" ++ pretty n else pretty n.

(** A rational that is not negative with two decimals, the nearest
    such number, an exact tie going to the even last digit. *)
Definition fixed2 (q : Q) : string :=
  let hundredths := round_half_even (q * 100) in
  pretty (hundredths / 100)%Z ++ "." ++ two_digits (hundredths mod 100)%Z.

(** [f"{x:.2f}"] of a [float]: the sign, then the magnitude the double
    denotes with two decimals. *)
Definition format_float (f : spec_float) : string :=
  match f with
  | S754_nan => "nan"
  | S754_infinity s => if s then "-inf" else "inf"
  | S754_zero s => if s then "-0.00" else "0.00"
  | S754_finite s _ _ =>
      (if s then "-" else "") ++ fixed2 (Qabs (float_value f))
  end.

(** [f"{x:.2f}"]: an [int] is converted to a [float] first; a [str] has
    no format code [f]. *)
Definition format_2f (c : cell) : outcome string :=
  match c with
  | CStr _ => Raise ValueError
  | CInt z => f ← float_of_int z; Return (format_float f)
  | CFloat f => Return (format_float f)
  end.

(* ================================================================== *)
(** * Sorting *)

Section Sorting.
Context {A : Type} (before : A -> A -> bool).

(** [x] goes in front of the first element it may precede. *)
Fixpoint insert_by (x : A) (l : list A) : list A :=
  match l with
  | [] => [x]
  | y :: l' => if before x y then x :: l else y :: insert_by x l'
  end.

(** A stable sort: of two elements that may each precede the other,
    the one that came first stays first. *)
Definition stable_sort (l : list A) : list A := foldr insert_by [] l.

End Sorting.

(** [numpy.argsort(kind="quicksort")], the sort behind [sort_values]
    when no [kind] is given. *)
Class SortValues :=
  quicksort : forall A : Type, (A -> A -> bool) -> list A -> list A.
Arguments quicksort {_} {A} _ _.


(* ================================================================== *)
(** * Data frames *)

(** The dtype of a column, as far as the handlers can tell: [object],
    or one of the numeric dtypes ([int64], [float64]). *)
Inductive dtype :=
| DObject
| DNumber.

Definition is_object (d : dtype) : bool :=
  match d with DObject => true | DNumber => false end.

Record DataFrame := {
  columns : list string;
  dtypes : list dtype;
  rows : list (list cell)
}.

(** A column taken out of a frame or computed from one: its dtype and
    its values. *)
Definition Series : Type := dtype * list cell.

(** A record of [to_dict(orient="records")]: label and value, in column
    order. *)
Definition record := list (string * cell).

Fixpoint positions_from (i : nat) (label : string) (cols : list string)
  : list nat :=
  match cols with
  | [] => []
  | c :: cols' =>
      if String.eqb c label
      then i :: positions_from (S i) label cols'
      else positions_from (S i) label cols'
  end.

(** The positions of the columns that carry [label]. *)
Definition positions (label : string) (cols : list string) : list nat :=
  positions_from 0 label cols.

Definition cell_at (i : nat) (r : list cell) : cell := nth i r CNaN.

Definition dtype_at (i : nat) (ds : list dtype) : dtype := nth i ds DObject.

(** [df[label]]: the values of the column.  The labels looked up this
    way, "Product Name" and "Total Sales", head at most one column of a
    frame the loader builds ([new_headers_one_column] below). *)
Definition getitem (df : DataFrame) (label : string) : outcome (list cell) :=
  match positions label (columns df) with
  | [] => Raise KeyError
  | i :: _ => Return (map (cell_at i) (rows df))
  end.

(** [df[labels]]: for each label in turn, every column that carries it. *)
Definition getitem_list (df : DataFrame) (labels : list string)
  : outcome DataFrame :=
  if forallb (fun l => existsb (String.eqb l) (columns df)) labels
  then
    let ps := flat_map (fun l => positions l (columns df)) labels in
    Return {| columns := map (fun i => nth i (columns df) "") ps;
              dtypes := map (fun i => dtype_at i (dtypes df)) ps;
              rows := map (fun r => map (fun i => cell_at i r) ps) (rows df) |}
  else Raise KeyError.

(** [series == value] *)
Definition eq_scalar (series : list cell) (v : cell) : list bool :=
  map (fun x => py_eq x v) series.

(** [df[mask]]: the rows whose mask entry is true. *)
Definition getitem_mask (df : DataFrame) (mask : list bool) : DataFrame :=
  {| columns := columns df;
     dtypes := dtypes df;
     rows := map fst (List.filter snd (combine (rows df) mask)) |}.

(** [df.iloc[:, 1:]] *)
Definition iloc_from1 (df : DataFrame) : DataFrame :=
  {| columns := tl (columns df);
     dtypes := tl (dtypes df);
     rows := map (@tl cell) (rows df) |}.

(** [df.empty]: some axis has length zero. *)
Definition empty (df : DataFrame) : bool :=
  match rows df, columns df with
  | [], _ | _, [] => true
  | _, _ => false
  end.

(** [df.to_dict(orient="records")]: the rows are read off the columns
    side by side, so a frame without columns gives no record, whatever
    its number of rows. *)
Definition to_records (df : DataFrame) : list record :=
  match columns df with
  | [] => []
  | _ :: _ => map (fun r => combine (columns df) r) (rows df)
  end.

Definition fillna0 (c : cell) : cell :=
  if is_nan c then CInt 0 else c.

Fixpoint add_all (acc : cell) (l : list cell) : outcome cell :=
  match l with
  | [] => Return acc
  | c :: l' => acc' ← py_add acc c; add_all acc' l'
  end.

(** The sum of one row of Python objects with [skipna=True]: missing
    cells are replaced by [0], the cells are added from left to right;
    no cell at all gives [0]. *)
Definition row_sum (cells : list cell) : outcome cell :=
  match map fillna0 cells with
  | [] => Return (CInt 0)
  | c :: l => add_all c l
  end.

(** The sums of the rows.  When several rows cannot be summed, the
    failure reported here is that of the first of them; numpy may meet
    another first, so no theorem says which one is reported. *)
Fixpoint sum_rows (rs : list (list cell)) : outcome (list cell) :=
  match rs with
  | [] => Return []
  | r :: rs' => t ← row_sum r; ts ← sum_rows rs'; Return (t :: ts)
  end.

(** The sum of one row of a numeric array.  numpy adds the numbers in
    an order of its own and in the arithmetic of the array's dtype. *)
Class ArraySum := numeric_row_sum : list cell -> cell.

Section Sum.
Context `{ArraySum}.

(** [df.sum(axis=1)]: with an [object] column the rows are rows of
    Python objects and so is the result; a frame of numeric columns is
    summed by numpy; a frame without columns sums to [0.0] in every
    row. *)
Definition sum_axis1 (df : DataFrame) : outcome Series :=
  if existsb is_object (dtypes df)
  then totals ← sum_rows (rows df); Return (DObject, totals)
  else
    match columns df with
    | [] => Return (DNumber, map (fun _ => CFloat (S754_zero false)) (rows df))
    | _ :: _ => Return (DNumber, map numeric_row_sum (rows df))
    end.

End Sum.

Fixpoint set_at {A : Type} (i : nat) (v : A) (r : list A) : list A :=
  match r, i with
  | [], _ => []
  | _ :: r', O => v :: r'
  | c :: r', S i' => c :: set_at i' v r'
  end.

(** [df[label] = series] as a function of the frame: every column that
    carries the label is overwritten and takes the dtype of the series,
    a new label adds a column. *)
Definition setitem (df : DataFrame) (label : string) (series : Series)
  : DataFrame :=
  match positions label (columns df) with
  | [] =>
      {| columns := (columns df ++ [label])%list;
         dtypes := (dtypes df ++ [fst series])%list;
         rows := zip_with (fun r v => (r ++ [v])%list) (rows df) (snd series) |}
  | ps =>
      {| columns := columns df;
         dtypes := foldr (fun i ds => set_at i (fst series) ds) (dtypes df) ps;
         rows := zip_with (fun r v => foldr (fun i r' => set_at i v r') r ps)
                          (rows df) (snd series) |}
  end.

(** [df.nlargest(n, label)] with the default [keep="first"].  The
    method reads [df[label].dtype]: a label that heads several columns
    gives a frame, which has no such attribute, and a column of dtype
    [object] is rejected.  Otherwise the rows in descending order of
    the column, first occurrences first among equal values, missing
    values after the others, cut to [n] rows. *)
Definition nlargest (n : nat) (label : string) (df : DataFrame)
  : outcome DataFrame :=
  match positions label (columns df) with
  | [] => Raise KeyError
  | [i] =>
      if is_object (dtype_at i (dtypes df)) then Raise TypeError
      else
        let key := cell_at i in
        let present := List.filter (fun r => negb (is_nan (key r))) (rows df) in
        let missing := List.filter (fun r => is_nan (key r)) (rows df) in
        Return {| columns := columns df;
                  dtypes := dtypes df;
                  rows := firstn n
                    (stable_sort (fun a b => cell_leb (key b) (key a)) present
                     ++ missing)%list |}
  | _ :: _ :: _ => Raise AttributeError
  end.

(** Python can order a set of values when they are all numbers or all
    strings. *)
Definition comparable (l : list cell) : bool :=
  forallb is_num l || forallb is_str l.

Section SortValuesOp.
Context `{SortValues}.

(** [df.sort_values(label, ascending=False)] with the defaults
    [kind="quicksort"] and [na_position="last"]: a label that heads
    several columns is rejected; comparing a number with a [str] raises;
    otherwise the rows with a value come first, in descending order, and
    the rows with a missing value follow in their original order. *)
Definition sort_values_desc (label : string) (df : DataFrame)
  : outcome DataFrame :=
  match positions label (columns df) with
  | [] => Raise KeyError
  | [i] =>
      let key := cell_at i in
      let present := List.filter (fun r => negb (is_nan (key r))) (rows df) in
      let missing := List.filter (fun r => is_nan (key r)) (rows df) in
      if comparable (map key present)
      then Return {| columns := columns df;
                     dtypes := dtypes df;
                     rows := (quicksort (fun a b => cell_leb (key b) (key a))
                                        present
                              ++ missing)%list |}
      else Raise TypeError
  | _ :: _ :: _ => Raise ValueError
  end.

End SortValuesOp.

(* ================================================================== *)
(** * The store of frame objects *)

Definition loc := nat.
Definition store := list DataFrame.

(** A computation that may read and update frame objects and may raise. *)
Definition M (A : Type) : Type := store -> outcome A * store.

#[global] Instance M_ret : MRet M := fun A a σ => (Return a, σ).
#[global] Instance M_bind : MBind M := fun A B f m σ =>
  match m σ with
  | (Return a, σ') => f a σ'
  | (Raise e, σ') => (Raise e, σ')
  end.

(** A computation on values, run inside the store. *)
Definition lift {A : Type} (o : outcome A) : M A := fun σ => (o, σ).

(** The frame an object currently holds. *)
Definition df_read (l : loc) : M DataFrame := fun σ =>
  match σ !! l with
  | Some df => (Return df, σ)
  | None => (Raise DanglingReference, σ)
  end.

(** [df.copy()]: a new object with the same contents. *)
Definition df_copy (l : loc) : M loc := fun σ =>
  match σ !! l with
  | Some df => (Return (length σ), (σ ++ [df])%list)
  | None => (Raise DanglingReference, σ)
  end.

(** [df[label] = series]: the object is updated in place. *)
Definition df_setitem (l : loc) (label : string) (series : Series)
  : M unit := fun σ =>
  match σ !! l with
  | Some df => (Return tt, <[l := setitem df label series]> σ)
  | None => (Raise DanglingReference, σ)
  end.

(* ================================================================== *)
(** * The advanced agent ([src/advanced_sales_agent.py]) *)

(** The value under the key ["result"] of the dict a tool returns. *)
Inductive result :=
| RText (s : string)
| RProducts (l : list (cell * record))
| RRecords (l : list record).

(** [AgentState]; [data] refers to the frame object. *)
Record AgentState := {
  question : string;
  data : loc;
  intermediate_steps : list result;
  final_answer : string
}.

Section Agents.
Context `{NumRepr} `{SortValues} `{ArraySum}.

(** The body of the second loop of [get_product_sales]: the rows whose
    name equals [product], and of these the first, without its first
    column.  [to_dict(orient="records")[0]] is out of range when no
    column is left. *)
Definition product_record (df : DataFrame) (names : list cell)
    (product : cell) : outcome (list (cell * record)) :=
  let product_data := getitem_mask df (eq_scalar names product) in
  if empty product_data then Return []
  else match to_records (iloc_from1 product_data) with
       | sales :: _ => Return [(product, sales)]
       | [] => Raise IndexError
       end.

(** The second loop: the records of the products in turn. *)
Fixpoint product_records (df : DataFrame) (names : list cell)
    (products : list cell) : outcome (list (cell * record)) :=
  match products with
  | [] => Return []
  | product :: products' =>
      found ← product_record df names product;
      results ← product_records df names products';
      Return (found ++ results)%list
  end.

Definition get_product_sales (state : AgentState) : M result :=
  let q := question state in
  df ← df_read (data state);
  names ← lift (getitem df "Product Name");
  let products :=
    List.filter (fun product => py_in (lower (py_str product)) (lower q))
                names in
  match products with
  | [] => mret (RText "No matching products found in the data.")
  | _ :: _ =>
      results ← lift (product_records df names products);
      mret (RProducts results)
  end.

Definition get_top_products (state : AgentState) : M result :=
  copy ← df_copy (data state);
  df ← df_read copy;
  let sales_columns := tl (columns df) in
  sales ← lift (getitem_list df sales_columns);
  totals ← lift (sum_axis1 sales);
  _ ← df_setitem copy "Total Sales" totals;
  df' ← df_read copy;
  largest ← lift (nlargest 5 "Total Sales" df');
  top_products ← lift (getitem_list largest ["Product Name"; "Total Sales"]);
  mret (RRecords (to_records top_products)).

(** Every label is a [str] (the loader builds each with [str()] or an
    f-string), so the [isinstance(month, str)] tests hold throughout. *)
Definition get_monthly_sales (state : AgentState) : M result :=
  let q := question state in
  df ← df_read (data state);
  let months_in_data :=
    List.filter (fun c => negb (String.eqb c "Product Name"
                                || String.eqb c "Total Sales"))
                (columns df) in
  let found_month := List.find (fun month => py_in month q) months_in_data in
  match found_month with
  | None => mret (RText "No specific month mentioned in the question.")
  | Some month =>
      if String.eqb month ""
      then mret (RText "No specific month mentioned in the question.")
      else
        pair ← lift (getitem_list df ["Product Name"; month]);
        monthly_sales ← lift (sort_values_desc month pair);
        mret (RRecords (to_records monthly_sales))
  end.

Definition router (state : AgentState) : M string :=
  let q := lower (question state) in
  df ← df_read (data state);
  let month_columns := List.filter re_match_month (columns df) in
  mret (if py_in "product" q && (py_in "sales" q || py_in "sell" q)
        then "get_product_sales"
        else if py_in "top" q && (py_in "product" q || py_in "selling" q)
        then "get_top_products"
        else if py_in "month" q
                || existsb (fun month => py_in month q) month_columns
        then "get_monthly_sales"
        else "general_query").

(* ================================================================== *)
(** * The basic agent ([src/basic_sales_agent.py]) *)

(** [data] is the frame the module loads at start-up; the function only
    reads it. *)
Definition get_product_total_sales (data : DataFrame) (question : string)
  : outcome result :=
  names ← getitem data "Product Name";
  let product_name :=
    List.find (fun product => py_in (lower (py_str product)) (lower question))
              names in
  match product_name with
  | None => Return (RText "Product not found in the data.")
  | Some product_name =>
      if negb (truthy product_name)
      then Return (RText "Product not found in the data.")
      else
        let sales_columns :=
          List.filter (fun col => negb (String.eqb col "Product Name"))
                      (columns data) in
        let product_data := getitem_mask data (eq_scalar names product_name) in
        if empty product_data
        then Return (RText "No sales data available for this product.")
        else
          sales ← getitem_list product_data sales_columns;
          sums ← sum_axis1 sales;
          match snd sums with
          | [] => Raise IndexError
          | total_sales :: _ =>
              amount ← format_2f total_sales;
              Return (RText ("Total sales for " ++ py_str product_name
                             ++ ": " ++ amount))
          end
  end.

End Agents.

(* ================================================================== *)
(** * The loader's headers ([src/sales_data_loader.py]) *)

(** A cell of the header row: missing, a [str], or an [int]. *)
Inductive header :=
| HMissing
| HStr (s : string)
| HInt (z : Z).

(** [str(header)] *)
Definition header_str (h : header) : string :=
  match h with
  | HMissing => "nan"
  | HStr s => s
  | HInt z => pretty z
  end.

(** The key a header is in the dict [seen]: a [str] and an [int] are
    never the same key. *)
Definition header_key (h : header) : string + Z :=
  match h with
  | HStr s => inl s
  | HInt z => inr z
  | HMissing => inl "nan"
  end.

(** The loop of [load_excel_data] over the header row; [seen] counts
    the repetitions of each header met so far. *)
Fixpoint repair_headers (seen : gmap (string + Z) nat) (headers : list header)
  : list string :=
  match headers with
  | [] => []
  | HMissing :: rest => "unnamed" :: repair_headers seen rest
  | h :: rest =>
      match seen !! header_key h with
      | Some n =>
          (header_str h ++ "_" ++ pretty (S n))
          :: repair_headers (<[header_key h := S n]> seen) rest
      | None =>
          header_str h :: repair_headers (<[header_key h := 0%nat]> seen) rest
      end
  end.

(** The column labels of the frame [load_excel_data] returns.  The
    labels are set once, from the header loop; the later pass over the
    date-like columns rewrites values, not labels. *)
Definition new_headers (headers : list header) : list string :=
  repair_headers ∅ headers.

(* ================================================================== *)
(** * The router as its description states it *)

Inductive Intent :=
| ProductSales
| TopProducts
| MonthlySales
| GeneralQuery.

(** The tool the router names for an intent. *)
Definition tool_name (i : Intent) : string :=
  match i with
  | ProductSales => "get_product_sales"
  | TopProducts => "get_top_products"
  | MonthlySales => "get_monthly_sales"
  | GeneralQuery => "general_query"
  end.

(** Rule 1: "product" and ("sales" or "sell"). *)
Definition rule_product (q : string) : Prop :=
  occurs_in "product" q /\ (occurs_in "sales" q \/ occurs_in "sell" q).

(** Rule 2: "top" and ("product" or "selling"). *)
Definition rule_top (q : string) : Prop :=
  occurs_in "top" q /\ (occurs_in "product" q \/ occurs_in "selling" q).

(** Rule 3: "month", or a column that matches the period pattern and
    occurs literally. *)
Definition rule_month (q : string) (cols : list string) : Prop :=
  occurs_in "month" q
  \/ exists col, In col cols /\ re_match_month col = true /\ occurs_in col q.

(** The rules in their order, the first that applies deciding. *)
Inductive classifies (q : string) (cols : list string) : Intent -> Prop :=
| classifies_product :
    rule_product q -> classifies q cols ProductSales
| classifies_top :
    ~ rule_product q -> rule_top q -> classifies q cols TopProducts
| classifies_month :
    ~ rule_product q -> ~ rule_top q -> rule_month q cols ->
    classifies q cols MonthlySales
| classifies_general :
    ~ rule_product q -> ~ rule_top q -> ~ rule_month q cols ->
    classifies q cols GeneralQuery.

(* ================================================================== *)
(** * Tables *)

(** The table the handlers are written for: the product name heads the
    first column, no two columns share a label, and every row has a
    cell for every column. *)
Record table_ok (df : DataFrame) : Prop := {
  ok_first : hd_error (columns df) = Some "Product Name";
  ok_labels : NoDup (columns df);
  ok_shape : Forall (fun r => length r = length (columns df)) (rows df)
}.

(** Every column has its dtype. *)
Definition dtypes_ok (df : DataFrame) : Prop :=
  length (dtypes df) = length (columns df).

(** The product name of a row and its other cells. *)
Definition product_name (r : list cell) : cell := cell_at 0 r.

(** The positions [df[labels]] reads, in the order it reads them. *)
Definition selected (df : DataFrame) (labels : list string) : list nat :=
  flat_map (fun l => positions l (columns df)) labels.

(** The labels the basic tool sums under: all but "Product Name". *)
Definition sales_labels (df : DataFrame) : list string :=
  List.filter (fun col => negb (String.eqb col "Product Name")) (columns df).

(** The cells of a row the basic tool adds up, in the order it adds
    them: for each such label in turn, the cell of every column that
    carries it. *)
Definition summed_cells (df : DataFrame) (r : list cell) : list cell :=
  map (fun i => cell_at i r) (selected df (sales_labels df)).

(** The dtypes of the columns these cells come from. *)
Definition summed_dtypes (df : DataFrame) : list dtype :=
  map (fun i => dtype_at i (dtypes df)) (selected df (sales_labels df)).

(** The frame [product_data[sales_columns]] the basic tool sums, for
    the rows [rs] of the product. *)
Definition summed_frame (df : DataFrame) (rs : list (list cell)) : DataFrame :=
  {| columns := map (fun i => nth i (columns df) "")
                    (selected df (sales_labels df));
     dtypes := summed_dtypes df;
     rows := map (summed_cells df) rs |}.

(** The frame [df[df.columns[1:]]] the top-products tool sums, and what
    it holds of a row: the cells under the labels after the first. *)
Definition sales_frame (df : DataFrame) : DataFrame :=
  {| columns := map (fun i => nth i (columns df) "")
                    (selected df (tl (columns df)));
     dtypes := map (fun i => dtype_at i (dtypes df))
                   (selected df (tl (columns df)));
     rows := map (fun r => map (fun i => cell_at i r)
                               (selected df (tl (columns df))))
                 (rows df) |}.

Definition totalled_cells (df : DataFrame) (r : list cell) : list cell :=
  map (fun i => cell_at i r) (selected df (tl (columns df))).

Definition totalled_dtypes (df : DataFrame) : list dtype :=
  map (fun i => dtype_at i (dtypes df)) (selected df (tl (columns df))).

(** The [int] a cell counts for in a sum of [int]s: a missing cell
    counts as zero. *)
Definition int_summand (c : cell) : Z :=
  match c with CInt z => z | _ => 0%Z end.

(** A cell that is an [int] or missing. *)
Definition int_or_missing (c : cell) : bool :=
  match c with CInt _ => true | CNaN => true | _ => false end.

Section Mentions.
Context `{NumRepr}.

(** The test both agents apply to a product name:
    [str(product).lower() in question.lower()]. *)
Definition mentioned (q : string) (product : cell) : bool :=
  py_in (lower (py_str product)) (lower q).


(** The last step of the basic tool: the sum it prints is the first of
    the sums of the rows selected. *)
Definition total_sales_answer `{ArraySum} (p : cell) (sales : DataFrame)
  : outcome result :=
  sums ← sum_axis1 sales;
  match snd sums with
  | [] => Raise IndexError
  | total_sales :: _ =>
      amount ← format_2f total_sales;
      Return (RText ("Total sales for " ++ py_str p ++ ": " ++ amount))
  end.

End Mentions.

(** ** The monthly tool *)

(** The columns the monthly tool looks for in the question. *)
Definition month_candidates (df : DataFrame) : list string :=
  List.filter (fun c => negb (String.eqb c "Product Name"
                              || String.eqb c "Total Sales"))
              (columns df).



(** ** Repeated headers *)

(** Two header cells are the same dict key. *)
Definition same_header (h h' : header) : bool :=
  match h, h' with
  | HStr s, HStr t => String.eqb s t
  | HInt a, HInt b => Z.eqb a b
  | _, _ => false
  end.

(** How often [h] occurs in the headers to its left. *)
Definition earlier (h : header) (left : list header) : nat :=
  length (List.filter (same_header h) left).

(** How often the dict [seen] has met [h]. *)
Definition times_seen (seen : gmap (string + Z) nat) (h : header) : nat :=
  match seen !! header_key h with
  | None => 0
  | Some n => S n
  end.

(** The label of a header that occurred [k] times before. *)
Definition label_after (k : nat) (h : header) : string :=
  match k with
  | O => header_str h
  | S _ => header_str h ++ "_" ++ pretty k
  end.

(** The first character of a string. *)
Definition head_char (s : string) : option Ascii.ascii :=
  match s with
  | EmptyString => None
  | String c _ => Some c
  end.

(* ================================================================== *)
(** * Implementations of the interfaces, for the closed examples *)

(** A run of [n] zeros. *)
Fixpoint zeros (n : nat) : string :=
  match n with
  | O => ""
  | S n' => "0" ++ zeros n'
  end.

(** The fraction [f / 10^k] without its final zeros. *)
Fixpoint shorten (k : nat) (f : Z) : nat * Z :=
  match k with
  | O => (O, f)
  | S k' => if (f mod 10 =? 0)%Z then shorten k' (f / 10)%Z else (k, f)
  end.

(** A double by its exact decimal expansion, which has an end since the
    denominator is a power of two.  For the doubles of the examples
    below this is what Python prints. *)
Definition decimal_of (f : spec_float) : string :=
  match f with
  | S754_zero s => if s then "-0.0" else "0.0"
  | S754_finite s m e =>
      (if s then "-" else "")
      ++ match e with
         | Zneg k =>
             let places := Pos.to_nat k in
             let scaled := (Zpos m * 5 ^ Zpos k)%Z in
             let unit := (10 ^ Zpos k)%Z in
             let '(kept, digits) := shorten places (scaled mod unit)%Z in
             pretty (scaled / unit)%Z ++ "."
             ++ match kept with
                | O => "0"
                | S _ => zeros (kept - String.length (pretty digits))
                         ++ pretty digits
                end
         | _ => pretty (Zpos m * 2 ^ e)%Z ++ ".0"
         end
  | S754_infinity s => if s then "-inf" else "inf"
  | S754_nan => "nan"
  end.

Definition decimal_repr : NumRepr := decimal_of.

(** The stable sort, as the sort behind [sort_values]. *)
Definition stable_quicksort : SortValues := @stable_sort.

(** A sum of a numeric row: the cells from left to right, as doubles;
    a row that cannot be added gives a missing value. *)
Definition left_to_right : ArraySum :=
  fun cells =>
    match add_all (CFloat (S754_zero false)) (map fillna0 cells) with
    | Return total => total
    | Raise _ => CNaN
    end.

(* ================================================================== *)
(** * Sample tables *)

(** A state that asks [q] about the frame object at location 0. *)
Definition ask (q : string) : AgentState :=
  {| question := q; data := 0%nat; intermediate_steps := [];
     final_answer := "" |}.

(** The dtypes of a frame read under text headers. *)
Definition all_object (n : nat) : list dtype := repeat DObject n.

(** Two products, one name a prefix of the other; the sales of the
    first are 10.5 and 20.25. *)
Definition pc_table : DataFrame :=
  {| columns := ["Product Name"; "2021-07"; "2021-08"];
     dtypes := all_object 3;
     rows := [ [CStr "PC-1000"; CFloat (dyadic 21 (-1)); CFloat (dyadic 81 (-2))];
               [CStr "PC-1000-X"; CInt 7; CInt 8] ] |}.

(** The same table with numeric columns of sales, as a frame built from
    arrays of numbers has them. *)
Definition pc_numeric_table : DataFrame :=
  {| columns := ["Product Name"; "2021-07"; "2021-08"];
     dtypes := [DObject; DNumber; DNumber];
     rows := [ [CStr "PC-1000"; CFloat (dyadic 21 (-1)); CFloat (dyadic 81 (-2))];
               [CStr "PC-1000-X"; CFloat (dyadic 7 0); CFloat (dyadic 8 0)] ] |}.

(** A table with a missing data cell. *)
Definition gap_table : DataFrame :=
  {| columns := ["Product Name"; "2021-07"; "2021-08"];
     dtypes := all_object 3;
     rows := [ [CStr "PC-1000"; CInt 10; CNaN];
               [CStr "PC-2000"; CNaN; CNaN];
               [CStr "PC-3000"; CInt 4; CInt 6] ] |}.

(** A table with a note where a number is expected. *)
Definition pending_table : DataFrame :=
  {| columns := ["Product Name"; "2021-07"; "2021-08"];
     dtypes := all_object 3;
     rows := [ [CStr "PC-1000"; CInt 10; CStr "pending"];
               [CStr "PC-2000"; CInt 7; CInt 8] ] |}.

(** A table that has the product names and nothing else. *)
Definition name_only_table : DataFrame :=
  {| columns := ["Product Name"];
     dtypes := all_object 1;
     rows := [ [CStr "Widget"] ] |}.

(** A table with a row whose product name is blank in the sheet. *)
Definition blank_name_table : DataFrame :=
  {| columns := ["Product Name"; "2021-07"; "2021-08"];
     dtypes := all_object 3;
     rows := [ [CStr "PC-1000"; CInt 10; CInt 20];
               [CNaN; CInt 50; CInt 1] ] |}.



(** The double nearest to five thousandths, as Python reads [0.005]. *)
Definition five_thousandths : spec_float :=
  SFdiv prec emax (dyadic 5 0) (dyadic 1000 0).

(** A table whose sums show the arithmetic of doubles: [1 + 0.005] lies
    below 1.005, and [2**53 + 1] is not a double. *)
Definition rounding_table : DataFrame :=
  {| columns := ["Product Name"; "2021-07"; "2021-08"];
     dtypes := all_object 3;
     rows := [ [CStr "Anvil"; CInt 1; CFloat five_thousandths];
               [CStr "Bellows"; CInt (2 ^ 53 + 1); CNaN];
               [CStr "Crate"; CInt (2 ^ 1024); CNaN] ] |}.

(* ================================================================== *)
(** * The rest of the advanced agent: fallback, dispatch, final answer *)

(** The chain [prompt | llm | StrOutputParser] of [general_query] runs a
    language model outside the repository: [generate_text question
    columns] stands for [chain.invoke] on the question and the list of
    column labels.  It may fail. *)
Class TextGeneration := generate_text : string -> list string -> outcome string.

(** ** [json.dumps(obj, indent=2)] *)

Definition quote_char : Ascii.ascii := Ascii.ascii_of_nat 34.
Definition backslash : Ascii.ascii := Ascii.ascii_of_nat 92.

(** A hexadecimal digit, in lower case. *)
Definition hex_digit (n : nat) : Ascii.ascii :=
  Ascii.ascii_of_nat (if (n <? 10)%nat then 48 + n else 87 + n).

(** One character inside a JSON string ([ensure_ascii] is on): the
    quote, the backslash and the usual control characters have short
    escapes, the printable ASCII characters stand for themselves, every
    other code point is written [\u00xx]. *)
Definition json_escape_char (c : Ascii.ascii) : string :=
  let n := Ascii.nat_of_ascii c in
  if (n =? 34)%nat then String backslash (String quote_char "")
  else if (n =? 92)%nat then String backslash (String backslash "")
  else if (n =? 10)%nat then "\n"
  else if (n =? 13)%nat then "\r"
  else if (n =? 9)%nat then "\t"
  else if (n =? 8)%nat then "\b"
  else if (n =? 12)%nat then "\f"
  else if ((32 <=? n) && (n <=? 126))%nat then String c ""
  else "\u00" ++ String (hex_digit (n / 16)) (String (hex_digit (n mod 16)) "").

Fixpoint json_escape (s : string) : string :=
  match s with
  | EmptyString => EmptyString
  | String c s' => json_escape_char c ++ json_escape s'
  end.

(** A [str] as a JSON string. *)
Definition json_string (s : string) : string :=
  String quote_char (json_escape s ++ String quote_char "").

(** The line break and the indentation of a nesting level. *)
Definition line_break : string := String newline "".

Fixpoint indentation (level : nat) : string :=
  match level with
  | O => ""
  | S level' => "  " ++ indentation level'
  end.

(** The items of an array or the members of an object, one to a line. *)
Fixpoint join_lines (level : nat) (items : list string) : string :=
  match items with
  | [] => ""
  | [item] => item
  | item :: rest => item ++ "," ++ line_break ++ indentation level
                    ++ join_lines level rest
  end.

(** An array whose items are already written; [level] is the nesting
    level of the array itself. *)
Definition json_array (level : nat) (items : list string) : string :=
  match items with
  | [] => "[]"
  | _ :: _ => "[" ++ line_break ++ indentation (S level)
              ++ join_lines (S level) items
              ++ line_break ++ indentation level ++ "]"
  end.

(** An object whose keys and values are already written. *)
Definition json_object (level : nat) (members : list (string * string))
  : string :=
  match members with
  | [] => "{}"
  | _ :: _ => "{" ++ line_break ++ indentation (S level)
              ++ join_lines (S level)
                   (map (fun m => fst m ++ ": " ++ snd m) members)
              ++ line_break ++ indentation level ++ "}"
  end.

(** [d[key] = value] on a dict kept in insertion order: a key that is
    present keeps its place and takes the new value. *)
Fixpoint dict_set (d : record) (key : string) (value : cell) : record :=
  match d with
  | [] => [(key, value)]
  | (k, v) :: d' =>
      if String.eqb k key then (k, value) :: d'
      else (k, v) :: dict_set d' key value
  end.

(** The dict a record is: of two entries with the same label the later
    one gives the value. *)
Definition py_dict (r : record) : record :=
  fold_left (fun d kv => dict_set d (fst kv) (snd kv)) r [].

Section FinalAnswer.
Context `{NumRepr}.

(** A cell as a JSON value: an [int] in decimal, a [float] by its
    [repr], the missing value as [NaN], the infinities as [Infinity]
    and [-Infinity]. *)
Definition json_cell (c : cell) : string :=
  match c with
  | CStr s => json_string s
  | CInt z => pretty z
  | CFloat S754_nan => "NaN"
  | CFloat (S754_infinity s) => if s then "-Infinity" else "Infinity"
  | CFloat f => repr_num f
  end.

(** A record as a JSON object at nesting level [level]. *)
Definition json_record (level : nat) (r : record) : string :=
  json_object level
    (map (fun kv => (json_string (fst kv), json_cell (snd kv))) (py_dict r)).

(** [{"product": ..., "sales": {...}}] at nesting level 1. *)
Definition json_product (entry : cell * record) : string :=
  json_object 1
    [ (json_string "product", json_cell (fst entry));
      (json_string "sales", json_record 2 (snd entry)) ].

(** What [generate_final_answer] makes of a step: a list goes through
    [json.dumps(..., indent=2)], a [str] stays as it is. *)
Definition render (r : result) : string :=
  match r with
  | RText s => s
  | RRecords l => json_array 0 (map (json_record 1) l)
  | RProducts l => json_array 0 (map json_product l)
  end.

Definition generate_final_answer (state : AgentState) : string :=
  match last (intermediate_steps state) with
  | None => "I couldn't find an answer to your question."
  | Some final_answer => render final_answer
  end.

End FinalAnswer.

(** [update_state]: the new state has the old steps and the tool's
    result after them. *)
Definition update_state (state : AgentState) (tool_response : result)
  : AgentState :=
  {| question := question state;
     data := data state;
     intermediate_steps :=
       (intermediate_steps state ++ [tool_response])%list;
     final_answer := final_answer state |}.

Section Dispatch.
Context `{NumRepr} `{SortValues} `{ArraySum} `{TextGeneration}.

Definition general_query (state : AgentState) : M result :=
  df ← df_read (data state);
  response ← lift (generate_text (question state) (columns df));
  mret (RText response).

(** [call_tool]: the value under ["tool_response"]; the state comes
    back as it went in. *)
Definition call_tool (state : AgentState) : M (result * AgentState) :=
  tool_name ← router state;
  response ←
    (if String.eqb tool_name "get_product_sales" then get_product_sales state
     else if String.eqb tool_name "get_top_products" then get_top_products state
     else if String.eqb tool_name "get_monthly_sales"
          then get_monthly_sales state
     else general_query state);
  mret (response, state).

(** [run_agent] once the report is loaded: [loaded] is the frame
    [load_sales_report] returned, the only object of the store. *)
Definition run_agent (loaded : DataFrame) (q : string) : outcome string :=
  let state := {| question := q; data := 0%nat;
                  intermediate_steps := []; final_answer := "" |} in
  fst ((tool_call ← call_tool state;
        let updated_state := update_state state (fst tool_call) in
        mret (generate_final_answer updated_state)) [loaded]).

End Dispatch.

Section ToolOf.
Context `{NumRepr} `{SortValues} `{ArraySum} `{TextGeneration}.

(** The tool that answers for an intent. *)
Definition tool_of (i : Intent) : AgentState -> M result :=
  match i with
  | ProductSales => get_product_sales
  | TopProducts => get_top_products
  | MonthlySales => get_monthly_sales
  | GeneralQuery => general_query
  end.

End ToolOf.

(** A text generator that repeats the question. *)
Definition echo_text : TextGeneration :=
  fun q _ => Return ("You asked: " ++ q).

(* ================================================================== *)
(** * The basic agent's graph ([src/basic_sales_agent.py]) *)

Module Basic.
Section Graph.
Context `{NumRepr} `{ArraySum}.

(** The node "format_response": [{"response": state["result"]}]. *)
Definition format_response (state : gmap string result)
  : outcome (gmap string result) :=
  match state !! "result" with
  | Some r => Return {[ "response" := r ]}
  | None => Raise KeyError
  end.

(** [run_agent]: the graph get_sales -> format_response -> END hands
    the dict each node returns to the next node, and [invoke] returns
    the dict of the last one. *)
Definition run_agent (data : DataFrame) (question : string)
  : outcome result :=
  r ← get_product_total_sales data question;
  result ← format_response {[ "result" := r ]};
  Return (default (RText "No response generated") (result !! "response")).

End Graph.
End Basic.

(* ================================================================== *)
(** * The plotting agent ([src/sales_plot_agent.py]) *)

(** The drawing itself is outside the repository's logic: the month
    labels made by [pd.to_datetime(col).strftime("%b %Y")], the
    matplotlib calls and the writing of the file.  [draw_plot index
    values product path] stands for them; it may fail. *)
Class Plotting :=
  draw_plot : list string -> list cell -> cell -> string -> outcome unit.

(** [s.replace(old, new)] for two strings of one character each. *)
Fixpoint replace_char (old new : Ascii.ascii) (s : string) : string :=
  match s with
  | EmptyString => EmptyString
  | String c s' =>
      String (if Ascii.eqb c old then new else c) (replace_char old new s')
  end.

Definition space : Ascii.ascii := Ascii.ascii_of_nat 32.
Definition slash : Ascii.ascii := Ascii.ascii_of_nat 47.
Definition underscore : Ascii.ascii := Ascii.ascii_of_nat 95.

Module Plot.
Section Plot.
Context `{NumRepr} `{Plotting}.

(** [str(product_name).replace(" ", "_").replace("/", "_")] *)
Definition safe_name (product_name : cell) : string :=
  replace_char slash underscore
    (replace_char space underscore (py_str product_name)).

(** [str(Path("plots") / f"{safe_name}_sales.png")], with the POSIX
    separator. *)
Definition output_path (product_name : cell) : string :=
  "plots/" ++ safe_name product_name ++ "_sales.png".

(** [plot_product_sales]: the values under ["result"] and
    ["plot_path"]. *)
Definition plot_product_sales (data : DataFrame) (question : string)
  : outcome (string * option string) :=
  names ← getitem data "Product Name";
  let product_name :=
    List.find (fun product => py_in (lower (py_str product)) (lower question))
              names in
  match product_name with
  | None => Return ("Product not found in the data.", None)
  | Some product_name =>
      if negb (truthy product_name)
      then Return ("Product not found in the data.", None)
      else
        let product_data := getitem_mask data (eq_scalar names product_name) in
        if empty product_data
        then Return ("No sales data available for this product.", None)
        else
          let date_cols := List.filter (startswith "202") (columns data) in
          selected ← getitem_list product_data date_cols;
          match rows selected with
          | [] => Raise IndexError
          | sales :: _ =>
              _ ← draw_plot (columns selected) sales product_name
                    (output_path product_name);
              Return ("Sales plot generated for " ++ py_str product_name,
                      Some (output_path product_name))
          end
  end.

(** The dict [plot_product_sales] returns, as the graph hands it to
    the next node. *)
Definition tool_state (out : string * option string)
  : gmap string (option string) :=
  {[ "result" := Some (fst out); "plot_path" := snd out ]}.

(** The node "format_response":
    [{"response": state["result"],
      "plot_path": state.get("plot_path", "")}]. *)
Definition format_response (state : gmap string (option string))
  : outcome (gmap string (option string)) :=
  match state !! "result" with
  | Some r =>
      Return {[ "response" := r;
                "plot_path" := default (Some "") (state !! "plot_path") ]}
  | None => Raise KeyError
  end.

(** [run_agent]: the values under ["response"] and ["plot_path"];
    [None] is Python's [None]. *)
Definition run_agent (data : DataFrame) (question : string)
  : outcome (option string * option string) :=
  out ← plot_product_sales data question;
  result ← format_response (tool_state out);
  Return (default (Some "No response generated") (result !! "response"),
          default (Some "") (result !! "plot_path")).

End Plot.
End Plot.

(* ================================================================== *)
(** * The loader's frame ([src/sales_data_loader.py]) *)

(** [re.match(r"^\d{4}-\d{2}-\d{2}", col)]: the label starts with a
    date. *)
Definition re_match_date (col : string) : bool :=
  match col with
  | String y1 (String y2 (String y3 (String y4
      (String h1 (String m1 (String m2
        (String h2 (String d1 (String d2 _))))))))) =>
      is_digit y1 && is_digit y2 && is_digit y3 && is_digit y4
      && Ascii.eqb h1 hyphen
      && is_digit m1 && is_digit m2
      && Ascii.eqb h2 hyphen
      && is_digit d1 && is_digit d2
  | _ => false
  end.

(** [pd.to_datetime(series, errors="coerce").dt.strftime("%Y-%m")] on
    the values of one column; the parsing of dates is pandas' own. *)
Class DateConversion := to_year_month : list cell -> outcome (list cell).

(** The frame [pd.read_excel(..., header=None)] returns, split in its
    first row and the rows below it, with the dtype pandas gave each
    column. *)
Record Sheet := {
  first_row : list header;
  read_dtypes : list dtype;
  body : list (list cell)
}.

(** A column that holds a [str] has dtype [object]; the header is a
    cell of its column. *)
Definition text_headers_object (sh : Sheet) : Prop :=
  forall (j : nat) (s : string),
    first_row sh !! j = Some (HStr s) -> read_dtypes sh !! j = Some DObject.

Section Loader.
Context `{DateConversion}.

(** One turn of the loop over the date columns.  [df[col]] is a column
    only when the label heads exactly one; otherwise it is a frame,
    [to_datetime] raises on it, and the [except] leaves the frame as it
    is, as it does when the conversion itself raises.  [strftime] gives
    a column of dtype [object]. *)
Definition normalise_column (df : DataFrame) (col : string) : DataFrame :=
  match positions col (columns df) with
  | [i] =>
      match to_year_month (map (cell_at i) (rows df)) with
      | Return values => setitem df col (DObject, values)
      | Raise _ => df
      end
  | _ => df
  end.

(** [load_excel_data] from the frame read; [None] is a sheet without
    any row, where [df.iloc[0]] is out of bounds. *)
Definition load_excel_data (sheet : option Sheet) : outcome DataFrame :=
  match sheet with
  | None => Raise IndexError
  | Some sh =>
      let df := {| columns := new_headers (first_row sh);
                   dtypes := read_dtypes sh;
                   rows := body sh |} in
      let date_columns := List.filter re_match_date (columns df) in
      Return (fold_left normalise_column date_columns df)
  end.

Definition load_sales_report (sheet : option Sheet) : outcome DataFrame :=
  load_excel_data sheet.

End Loader.

(** The conversion works value by value, as [to_datetime] and
    [strftime] do on a column: it returns as many values as it is
    given. *)
Definition conversion_keeps_length `{DateConversion} : Prop :=
  forall cells values,
    to_year_month cells = Return values -> length values = length cells.

(** A sheet as [read_excel] returns it: every row below the first has a
    cell for every cell of the first. *)
Definition rectangular (sh : Sheet) : Prop :=
  Forall (fun r => length r = length (first_row sh)) (body sh).

(* ================================================================== *)
(** * Characters that lowercasing cannot produce from others *)

(** The characters of a period label, a digit, the hyphen and the line
    break, are no one's lowercase but their own. *)
Definition rigid (c : Ascii.ascii) : bool :=
  is_digit c || Ascii.eqb c hyphen || Ascii.eqb c newline.

Fixpoint all_rigid (s : string) : bool :=
  match s with
  | EmptyString => true
  | String c s' => rigid c && all_rigid s'
  end.

(* ================================================================== *)
(** * More sample data *)

(** A drawing that always succeeds. *)
Definition blank_canvas : Plotting := fun _ _ _ _ => Return tt.

(** A conversion that keeps the year and the month of a text that
    starts with a date, and gives a missing value for anything else. *)
Definition first_seven : DateConversion :=
  fun cells =>
    Return (map (fun c => match c with
                          | CStr s => CStr (String.substring 0 7 s)
                          | _ => CNaN
                          end) cells).

(** A sheet with a column of dates under a date-like header. *)
Definition dated_sheet : Sheet :=
  {| first_row := [HStr "Product Name"; HStr "2021-07-01"; HStr "2021-07"];
     read_dtypes := all_object 3;
     body := [ [CStr "Anvil"; CStr "2021-07-15"; CInt 5];
               [CStr "Bellows"; CStr "2021-07-20"; CInt 7] ] |}.

(** A sheet of numbers under text headers. *)
Definition sales_sheet : Sheet :=
  {| first_row := [HStr "Product Name"; HStr "2021-07"; HStr "2021-08"];
     read_dtypes := all_object 3;
     body := [ [CStr "Anvil"; CInt 5; CInt 6];
               [CStr "Bellows"; CInt 7; CInt 8] ] |}.

(** A table whose second period label occurs twice, as the loader
    labels two columns without a header. *)
Definition repeated_label_table : DataFrame :=
  {| columns := ["Product Name"; "unnamed"; "unnamed"];
     dtypes := all_object 3;
     rows := [ [CStr "Anvil"; CInt 5; CInt 6] ] |}.

(** A table without a column of product names. *)
Definition nameless_table : DataFrame :=
  {| columns := ["Item"; "2021-07"];
     dtypes := all_object 2;
     rows := [ [CStr "Anvil"; CInt 5] ] |}.



(* ================================================================== *)
(** * Strings: case folding, substring search and the period pattern *)




Lemma startswith_spec p s :
  startswith p s = true <-> exists post, s = p ++ post.
Proof.
  revert s. induction p as [|a p IH]; intros s; simpl.
  - split; [intros _; by exists s | done].
  - destruct s as [|b s].
    + split; [done | intros [post Hp]; discriminate].
    + rewrite andb_true_iff, Ascii.eqb_eq, IH. split.
      * intros [-> [post ->]]. by exists post.
      * intros [post Hp]. injection Hp as -> ->. eauto.
Qed.

Lemma py_in_spec needle hay :
  py_in needle hay = true <-> occurs_in needle hay.
Proof.
  unfold occurs_in. induction hay as [|c hay IH]; simpl.
  - rewrite orb_false_r, startswith_spec. split.
    + intros [post Hp]. by exists "", post.
    + intros [pre [post Hp]]. destruct pre; simpl in Hp.
      * by exists post.
      * discriminate.
  - rewrite orb_true_iff, startswith_spec, IH. split.
    + intros [[post Hp] | [pre [post Hp]]].
      * by exists "", post.
      * exists (String c pre), post. simpl. by rewrite Hp.
    + intros [pre [post Hp]]. destruct pre as [|c' pre]; simpl in Hp.
      * left. by exists post.
      * right. injection Hp as _ Hp. by exists pre, post.
Qed.

Lemma py_in_empty hay : py_in "" hay = true.
Proof. by destruct hay. Qed.

Lemma re_match_month_spec col :
  re_match_month col = true <->
  period_key col \/ exists k, period_key k /\ col = k ++ String newline "".
Proof.
  unfold period_key. split.
  - intros Hm.
    destruct col as [|y1 [|y2 [|y3 [|y4 [|h [|m1 [|m2 rest]]]]]]]; try discriminate.
    simpl in Hm. rewrite !andb_true_iff in Hm.
    destruct Hm as [[[[[[[H1 H2] H3] H4] Hh] H5] H6] Hr].
    apply Ascii.eqb_eq in Hh as ->.
    destruct rest as [|c [|]]; try discriminate.
    + left. exists y1, y2, y3, y4, m1, m2. tauto.
    + right. apply Ascii.eqb_eq in Hr as ->.
      eexists. split; [exists y1, y2, y3, y4, m1, m2; split; [reflexivity|tauto] | reflexivity].
  - intros [(y1&y2&y3&y4&m1&m2&->&H1&H2&H3&H4&H5&H6)
           | (k&(y1&y2&y3&y4&m1&m2&->&H1&H2&H3&H4&H5&H6)&->)];
      simpl; rewrite H1, H2, H3, H4, H5, H6; reflexivity.
Qed.

(* ================================================================== *)
(** * The store monad *)

Lemma bind_df_read {A} (l : loc) (k : DataFrame -> M A) (σ : store) df :
  σ !! l = Some df -> (df_read l ≫= k) σ = k df σ.
Proof. intros Hl. unfold mbind, M_bind, df_read. by rewrite Hl. Qed.

Lemma bind_df_read_none {A} (l : loc) (k : DataFrame -> M A) (σ : store) :
  σ !! l = None -> (df_read l ≫= k) σ = (Raise DanglingReference, σ).
Proof. intros Hl. unfold mbind, M_bind, df_read. by rewrite Hl. Qed.

Lemma bind_df_copy {A} (l : loc) (k : loc -> M A) (σ : store) df :
  σ !! l = Some df -> (df_copy l ≫= k) σ = k (length σ) (σ ++ [df])%list.
Proof. intros Hl. unfold mbind, M_bind, df_copy. by rewrite Hl. Qed.

Lemma bind_df_setitem {A} (l : loc) label values (k : unit -> M A)
    (σ : store) df :
  σ !! l = Some df ->
  (df_setitem l label values ≫= k) σ
  = k tt (<[l := setitem df label values]> σ).
Proof. intros Hl. unfold mbind, M_bind, df_setitem. by rewrite Hl. Qed.

Lemma bind_lift_return {A B} (a : A) (k : A -> M B) (σ : store) :
  (lift (Return a) ≫= k) σ = k a σ.
Proof. reflexivity. Qed.

Lemma bind_lift_raise {A B} (e : exn) (k : A -> M B) (σ : store) :
  (lift (Raise e) ≫= k) σ = (Raise e, σ).
Proof. reflexivity. Qed.

(* ================================================================== *)
(** * The router *)

Lemma rule_product_decide q :
  py_in "product" q && (py_in "sales" q || py_in "sell" q) = true
  <-> rule_product q.
Proof.
  unfold rule_product.
  by rewrite andb_true_iff, orb_true_iff, !py_in_spec.
Qed.

Lemma rule_top_decide q :
  py_in "top" q && (py_in "product" q || py_in "selling" q) = true
  <-> rule_top q.
Proof.
  unfold rule_top.
  by rewrite andb_true_iff, orb_true_iff, !py_in_spec.
Qed.

Lemma rule_month_decide q cols :
  py_in "month" q
  || existsb (fun month => py_in month q) (List.filter re_match_month cols)
  = true
  <-> rule_month q cols.
Proof.
  unfold rule_month. rewrite orb_true_iff, py_in_spec, existsb_exists.
  split; (intros [Hm | [col Hcol]]; [by left | right; exists col]).
  - destruct Hcol as [Hin Hq]. apply filter_In in Hin as [Hin Hre].
    by rewrite <- py_in_spec.
  - destruct Hcol as (Hin & Hre & Hq). rewrite filter_In, py_in_spec. tauto.
Qed.



(* ================================================================== *)
(** * Cells and frames *)

Lemma num_eqb_refl c : num_eqb c c = true.
Proof.
  unfold num_eqb. rewrite Z.eqb_refl. simpl.
  apply Qeq_bool_iff. reflexivity.
Qed.

Lemma py_eq_refl c : is_nan c = false -> py_eq c c = true.
Proof.
  destruct c as [s|z|f]; simpl.
  - intros _. apply String.eqb_refl.
  - intros _. apply num_eqb_refl.
  - intros Hnan. rewrite num_eqb_refl. by destruct f.
Qed.

Lemma py_eq_nan_r c : py_eq c CNaN = false.
Proof. destruct c as [s|z|f]; simpl; [done|done|]. by rewrite andb_false_r. Qed.

Lemma is_nan_CNaN c : is_nan c = true -> c = CNaN.
Proof. by destruct c as [s|z|[]]. Qed.

Lemma py_eq_not_nan a b : py_eq a b = true -> is_nan b = false.
Proof.
  intros Heq. destruct (is_nan b) eqn:E; [|done].
  apply is_nan_CNaN in E as ->. by rewrite py_eq_nan_r in Heq.
Qed.

Lemma mask_filter {A} (h : A -> bool) (l : list A) :
  map fst (List.filter snd (combine l (map h l))) = List.filter h l.
Proof.
  induction l as [|x l IH]; simpl; [done|].
  destruct (h x); simpl; by rewrite IH.
Qed.

(** The rows [df[df[label] == v]] keeps, when [series] is the column. *)
Lemma getitem_mask_rows df i v :
  rows (getitem_mask df (eq_scalar (map (cell_at i) (rows df)) v))
  = List.filter (fun r => py_eq (cell_at i r) v) (rows df).
Proof.
  unfold getitem_mask, eq_scalar. simpl. rewrite map_map.
  apply (mask_filter (fun r => py_eq (cell_at i r) v)).
Qed.

Lemma getitem_inv df label series :
  getitem df label = Return series ->
  exists i, series = map (cell_at i) (rows df) /\ columns df <> [].
Proof.
  unfold getitem, positions.
  destruct (positions_from 0 label (columns df)) as [|i ps] eqn:Hp; [done|].
  intros [= <-]. exists i. split; [done|].
  intros Hnil. by rewrite Hnil in Hp.
Qed.




Lemma filter_nil_iff {A} (f : A -> bool) (l : list A) :
  List.filter f l = [] <-> forall x, In x l -> f x = false.
Proof.
  induction l as [|x l IH]; simpl; [by split|].
  destruct (f x) eqn:E; split.
  - done.
  - intros Hall. specialize (Hall x (or_introl eq_refl)). congruence.
  - intros Hnil y [<-|Hy]; [done|]. by apply IH.
  - intros Hall. apply IH. intros y Hy. apply Hall. by right.
Qed.

(* ================================================================== *)
(** * The product-sales tool *)


Section ProductSales.
Context `{NumRepr}.

(** A missing name equals the name of no row: it gets no record. *)
Lemma product_record_nan df i product :
  is_nan product = true ->
  product_record df (map (cell_at i) (rows df)) product = Return [].
Proof.
  intros ->%is_nan_CNaN. unfold product_record, empty.
  rewrite getitem_mask_rows.
  rewrite (proj2 (filter_nil_iff _ _)); [done|].
  intros r _. apply py_eq_nan_r.
Qed.

(** A name that is not missing equals the name of its own row, so its
    rows are found: it gets the record of the first of them, unless no
    column is left to make a record of. *)
Lemma product_record_found df i product :
  columns df <> [] ->
  In product (map (cell_at i) (rows df)) ->
  is_nan product = false ->
  exists r rs,
    List.filter (fun r => py_eq (cell_at i r) product) (rows df) = r :: rs
    /\ product_record df (map (cell_at i) (rows df)) product
       = match tl (columns df) with
         | [] => Raise IndexError
         | _ :: _ => Return [(product, combine (tl (columns df)) (tl r))]
         end.
Proof.
  intros Hcols Hin Hnan. unfold product_record, empty, to_records, iloc_from1.
  cbn [rows columns]. rewrite !getitem_mask_rows.
  change (columns (getitem_mask df _)) with (columns df).
  apply in_map_iff in Hin as (r0 & Hr0 & Hin).
  destruct (List.filter (fun r => py_eq (cell_at i r) product) (rows df))
    as [|r rs] eqn:Hf.
  { rewrite filter_nil_iff in Hf. specialize (Hf r0 Hin).
    rewrite Hr0, py_eq_refl in Hf; done. }
  exists r, rs. split; [done|].
  destruct (columns df) as [|c [|c' cols]]; [done|done|reflexivity].
Qed.

Lemma product_records_nan df i products :
  (forall p, In p products -> is_nan p = true) ->
  product_records df (map (cell_at i) (rows df)) products = Return [].
Proof.
  induction products as [|p ps IH]; intros Hall; simpl; [done|].
  rewrite product_record_nan by (apply Hall; by left).
  cbn [mbind outcome_bind]. rewrite IH; [done|].
  intros x Hx. apply Hall. by right.
Qed.

Lemma product_records_fst df i products :
  columns df <> [] ->
  tl (columns df) <> [] ->
  (forall p, In p products -> In p (map (cell_at i) (rows df))) ->
  exists records,
    product_records df (map (cell_at i) (rows df)) products = Return records
    /\ map fst records = List.filter (fun p => negb (is_nan p)) products.
Proof.
  intros Hcols Htl. induction products as [|p ps IH]; intros Hin; simpl.
  { by exists []. }
  destruct IH as (records & Hrecords & Hfst).
  { intros x Hx. apply Hin. by right. }
  rewrite Hrecords. destruct (is_nan p) eqn:Hnan.
  - rewrite product_record_nan by done. by exists records.
  - destruct (product_record_found df i p Hcols (Hin p (or_introl eq_refl)) Hnan)
      as (r & rs & _ & ->).
    destruct (tl (columns df)); [done|].
    cbn [mbind outcome_bind negb]. eexists. split; [reflexivity|].
    simpl. by rewrite Hfst.
Qed.

Lemma product_records_one_column df i products :
  columns df <> [] ->
  tl (columns df) = [] ->
  (forall p, In p products -> In p (map (cell_at i) (rows df))) ->
  (exists p, In p products /\ is_nan p = false) ->
  product_records df (map (cell_at i) (rows df)) products = Raise IndexError.
Proof.
  intros Hcols Htl. induction products as [|p ps IH]; intros Hin (x & Hx & Hnan).
  { destruct Hx. }
  simpl. destruct (is_nan p) eqn:Hp.
  - rewrite product_record_nan by done. cbn [mbind outcome_bind].
    rewrite IH; [done| |].
    + intros y Hy. apply Hin. by right.
    + exists x. split; [|done]. destruct Hx as [<-|Hx]; [congruence|done].
  - destruct (product_record_found df i p Hcols (Hin p (or_introl eq_refl)) Hp)
      as (r & rs & _ & ->).
    by rewrite Htl.
Qed.


End ProductSales.

(* ================================================================== *)
(** * The stable sort *)

Section StableSort.
Context {A : Type}.
Implicit Types (before : A -> A -> bool) (l : list A).

Lemma insert_by_perm before x l : Permutation (insert_by before x l) (x :: l).
Proof.
  induction l as [|y l IH]; simpl; [done|].
  destruct (before x y); [done|].
  rewrite IH. apply perm_swap.
Qed.

Lemma stable_sort_perm before l : Permutation (stable_sort before l) l.
Proof.
  induction l as [|x l IH]; simpl; [done|].
  fold (stable_sort before l). by rewrite insert_by_perm, IH.
Qed.

Lemma stable_sort_cons before x l :
  stable_sort before (x :: l) = insert_by before x (stable_sort before l).
Proof. reflexivity. Qed.

Lemma stable_sort_In before x l : In x (stable_sort before l) <-> In x l.
Proof.
  split; apply Permutation_in;
    [apply stable_sort_perm | symmetry; apply stable_sort_perm].
Qed.

(** The sort consults [before] on the elements of the list only. *)
Lemma insert_by_ext before before' x l :
  (forall y, In y l -> before x y = before' x y) ->
  insert_by before x l = insert_by before' x l.
Proof.
  induction l as [|y l IH]; intros Hext; simpl; [done|].
  rewrite (Hext y (or_introl eq_refl)).
  destruct (before' x y); [done|].
  f_equal. apply IH. intros z Hz. apply Hext. by right.
Qed.

Lemma stable_sort_ext before before' l :
  (forall x y, In x l -> In y l -> before x y = before' x y) ->
  stable_sort before l = stable_sort before' l.
Proof.
  induction l as [|x l IH]; intros Hext; [done|].
  rewrite !stable_sort_cons, IH.
  - apply insert_by_ext. intros y Hy%stable_sort_In.
    apply Hext; [by left | by right].
  - intros y z Hy Hz. apply Hext; by right.
Qed.



End StableSort.

(** Sorting commutes with a change of representation. *)
Lemma insert_by_map {A B} (f : A -> B) (before : B -> B -> bool) x l :
  insert_by before (f x) (map f l)
  = map f (insert_by (fun a b => before (f a) (f b)) x l).
Proof.
  induction l as [|y l IH]; simpl; [done|].
  destruct (before (f x) (f y)); simpl; [done|]. by rewrite IH.
Qed.

Lemma stable_sort_map {A B} (f : A -> B) (before : B -> B -> bool) l :
  stable_sort before (map f l)
  = map f (stable_sort (fun a b => before (f a) (f b)) l).
Proof.
  induction l as [|x l IH]; [done|].
  rewrite map_cons, !stable_sort_cons, IH. apply insert_by_map.
Qed.

(* ================================================================== *)
(** * A sort that meets the contract of [SortValues] *)


Section ProductSalesClaims.
Context `{NumRepr}.

Lemma get_product_sales_run state σ df names :
  σ !! data state = Some df ->
  getitem df "Product Name" = Return names ->
  get_product_sales state σ
  = (match List.filter (mentioned (question state)) names with
     | [] => Return (RText "No matching products found in the data.")
     | p :: ps =>
         results ← product_records df names (p :: ps);
         Return (RProducts results)
     end, σ).
Proof.
  intros Hdf Hnames. unfold get_product_sales.
  rewrite (bind_df_read _ _ _ df Hdf), Hnames, bind_lift_return.
  fold (mentioned (question state)).
  destruct (List.filter (mentioned (question state)) names) as [|p ps]; [done|].
  destruct (product_records df names (p :: ps)) as [results|e];
    [by rewrite bind_lift_return | by rewrite bind_lift_raise].
Qed.


End ProductSalesClaims.



(* ================================================================== *)
(** * Looking columns up by label *)

Lemma positions_from_notin k label cols :
  ~ In label cols -> positions_from k label cols = [].
Proof.
  revert k. induction cols as [|c cols IH]; intros k Hnot; simpl; [done|].
  destruct (String.eqb c label) eqn:E.
  - apply String.eqb_eq in E. destruct Hnot. by left.
  - apply IH. intros Hin. apply Hnot. by right.
Qed.

Lemma positions_from_NoDup k label cols i :
  NoDup cols -> nth_error cols i = Some label ->
  positions_from k label cols = [(k + i)%nat].
Proof.
  revert k i. induction cols as [|c cols IH]; intros k i Hnd Hi.
  - by destruct i.
  - apply NoDup_cons in Hnd as [Hc Hnd]. simpl. destruct i as [|i]; simpl in Hi.
    + injection Hi as ->. rewrite String.eqb_refl.
      rewrite positions_from_notin; [|by rewrite <- list_elem_of_In].
      f_equal. lia.
    + destruct (String.eqb c label) eqn:E.
      * apply String.eqb_eq in E as ->. destruct Hc.
        apply list_elem_of_In. eapply nth_error_In, Hi.
      * rewrite (IH (S k) i Hnd Hi). f_equal. lia.
Qed.

Lemma positions_NoDup label cols i :
  NoDup cols -> nth_error cols i = Some label -> positions label cols = [i].
Proof. intros. unfold positions. by rewrite (positions_from_NoDup 0 label cols i). Qed.

Lemma positions_from_app_new k label cols :
  ~ In label cols ->
  positions_from k label (cols ++ [label]) = [(k + length cols)%nat].
Proof.
  revert k. induction cols as [|c cols IH]; intros k Hnot; simpl.
  - rewrite String.eqb_refl. f_equal. lia.
  - destruct (String.eqb c label) eqn:E.
    + apply String.eqb_eq in E. destruct Hnot. by left.
    + rewrite IH; [f_equal; lia|]. intros Hin. apply Hnot. by right.
Qed.

Lemma positions_from_app_other k label new cols :
  new <> label ->
  positions_from k label (cols ++ [new]) = positions_from k label cols.
Proof.
  intros Hne. revert k. induction cols as [|c cols IH]; intros k; simpl.
  - by rewrite (proj2 (String.eqb_neq new label) Hne).
  - rewrite IH. done.
Qed.




Lemma In_existsb_eqb label cols :
  In label cols -> existsb (String.eqb label) cols = true.
Proof.
  intros Hin. apply existsb_exists. exists label.
  split; [done | apply String.eqb_refl].
Qed.

(** Selecting labels of the frame succeeds: it reads the positions of
    each label in turn. *)
Lemma getitem_list_labels df labels :
  (forall l, In l labels -> In l (columns df)) ->
  getitem_list df labels
  = Return {| columns := map (fun i => nth i (columns df) "")
                             (selected df labels);
              dtypes := map (fun i => dtype_at i (dtypes df))
                            (selected df labels);
              rows := map (fun r => map (fun i => cell_at i r)
                                        (selected df labels))
                          (rows df) |}.
Proof.
  intros Hlabels. unfold getitem_list.
  assert (Hall : forallb (fun l => existsb (String.eqb l) (columns df)) labels
                 = true).
  { apply forallb_forall. intros l Hl. by apply In_existsb_eqb, Hlabels. }
  by rewrite Hall.
Qed.






Lemma sales_labels_In df l : In l (sales_labels df) -> In l (columns df).
Proof. unfold sales_labels. by intros [Hl _]%filter_In. Qed.

Lemma tl_In {A} (l : list A) (x : A) : In x (tl l) -> In x l.
Proof. destruct l; [done|]. by right. Qed.

(* ================================================================== *)
(** * Sums of rows of Python objects *)

Lemma float_of_int_raises z e : float_of_int z = Raise e -> e = OverflowError.
Proof.
  unfold float_of_int. destruct (dyadic z 0); try done. by intros [= <-].
Qed.

Lemma py_add_raises a b e :
  py_add a b = Raise e -> e = TypeError \/ e = OverflowError.
Proof.
  destruct a as [s|x|f], b as [t|y|g]; simpl; try done;
    try (intros [= <-]; by left).
  - destruct (float_of_int x) eqn:E; simpl; [done|].
    intros [= <-]. right. by apply float_of_int_raises in E.
  - destruct (float_of_int y) eqn:E; simpl; [done|].
    intros [= <-]. right. by apply float_of_int_raises in E.
Qed.

Lemma add_all_raises acc l e :
  add_all acc l = Raise e -> e = TypeError \/ e = OverflowError.
Proof.
  revert acc. induction l as [|c l IH]; intros acc; simpl; [done|].
  destruct (py_add acc c) eqn:E; simpl.
  - apply IH.
  - intros [= <-]. by apply py_add_raises in E.
Qed.

Lemma row_sum_raises cells e :
  row_sum cells = Raise e -> e = TypeError \/ e = OverflowError.
Proof.
  unfold row_sum. destruct (map fillna0 cells); [done|]. apply add_all_raises.
Qed.

Lemma sum_rows_raises rs e :
  sum_rows rs = Raise e -> e = TypeError \/ e = OverflowError.
Proof.
  induction rs as [|r rs IH]; simpl; [done|].
  destruct (row_sum r) as [t|e'] eqn:Hr; simpl.
  - destruct (sum_rows rs) as [ts|e'']; simpl; [done|].
    intros [= <-]. by apply IH.
  - intros [= <-]. by apply row_sum_raises in Hr.
Qed.

Lemma sum_rows_length rs sums :
  sum_rows rs = Return sums -> length sums = length rs.
Proof.
  revert sums. induction rs as [|r rs IH]; intros sums; simpl.
  - by intros [= <-].
  - destruct (row_sum r) as [t|e]; simpl; [|done].
    destruct (sum_rows rs) as [ts|e]; simpl; [|done].
    intros [= <-]. simpl. by rewrite (IH ts).
Qed.



(** ** Sums of [int]s are exact *)

Lemma add_all_ints (a : Z) (l : list cell) :
  Forall (fun c => exists z, c = CInt z) l ->
  add_all (CInt a) l
  = Return (CInt (fold_left Z.add (map int_summand l) a)).
Proof.
  intros Hl. revert a. induction Hl as [|c l [z ->] _ IH]; intros a; [done|].
  simpl. apply IH.
Qed.

Lemma fillna0_int c : int_or_missing c = true -> fillna0 c = CInt (int_summand c).
Proof. by destruct c as [s|z|[]]. Qed.

(** A row of [int]s and missing cells has the sum of its [int]s, a
    missing cell counting as zero. *)
Lemma row_sum_ints (cells : list cell) :
  forallb int_or_missing cells = true ->
  row_sum cells = Return (CInt (fold_left Z.add (map int_summand cells) 0%Z)).
Proof.
  intros Hall. unfold row_sum.
  assert (Hfill : map fillna0 cells = map (fun c => CInt (int_summand c)) cells).
  { apply map_ext_in. intros c Hc. apply fillna0_int.
    rewrite forallb_forall in Hall. by apply Hall. }
  rewrite Hfill. destruct cells as [|c cells]; [done|].
  simpl. rewrite add_all_ints.
  - by rewrite map_map.
  - apply List.Forall_forall. intros x (y & <- & _)%in_map_iff. by eexists.
Qed.

(** ** A text cell next to a number *)





(** ** [sum(axis=1)] *)

Section SumAxis.
Context `{ArraySum}.

Lemma sum_axis1_raises df e :
  sum_axis1 df = Raise e -> e = TypeError \/ e = OverflowError.
Proof.
  unfold sum_axis1. destruct (existsb is_object (dtypes df)).
  - destruct (sum_rows (rows df)) eqn:E; simpl; [done|].
    intros [= <-]. by apply sum_rows_raises in E.
  - by destruct (columns df).
Qed.

Lemma sum_axis1_length df series :
  sum_axis1 df = Return series -> length (snd series) = length (rows df).
Proof.
  unfold sum_axis1. destruct (existsb is_object (dtypes df)).
  - destruct (sum_rows (rows df)) eqn:E; simpl; [|done].
    intros [= <-]. by apply sum_rows_length.
  - destruct (columns df); intros [= <-]; simpl; by rewrite length_map.
Qed.

(** With an [object] column the sums are sums of Python objects, and the
    result has dtype [object]. *)
Lemma sum_axis1_object df :
  In DObject (dtypes df) ->
  sum_axis1 df = (totals ← sum_rows (rows df); Return (DObject, totals)).
Proof.
  intros Hin. unfold sum_axis1.
  assert (Hex : existsb is_object (dtypes df) = true).
  { apply existsb_exists. by exists DObject. }
  by rewrite Hex.
Qed.

End SumAxis.
(* ================================================================== *)
(** * The top-products tool *)

Lemma set_at_same k v r :
  (k < length r)%nat -> cell_at k (set_at k v r) = v.
Proof.
  revert k. induction r as [|c r IH]; intros k Hk; simpl in *; [lia|].
  destruct k as [|k]; [done|]. apply IH. lia.
Qed.

Lemma set_at_other k j v r :
  j <> k -> cell_at j (set_at k v r) = cell_at j r.
Proof.
  revert k j. induction r as [|c r IH]; intros k j Hjk.
  - by destruct k.
  - destruct k as [|k], j as [|j]; try done. simpl. apply IH. congruence.
Qed.

Lemma set_at_length {A} i (v : A) r : length (set_at i v r) = length r.
Proof.
  revert i. induction r as [|c r IH]; intros i; [by destruct i|].
  destruct i; simpl; [done|]. by rewrite IH.
Qed.

(** A column that was given the dtype [object] has it. *)
Lemma dtype_at_set_object k ds : dtype_at k (set_at k DObject ds) = DObject.
Proof.
  unfold dtype_at. revert k. induction ds as [|d ds IH]; intros k.
  - by destruct k.
  - destruct k as [|k]; [done|]. simpl. apply IH.
Qed.

Lemma dtype_at_set_other k j d ds :
  j <> k -> dtype_at j (set_at k d ds) = dtype_at j ds.
Proof.
  unfold dtype_at. revert k j. induction ds as [|c ds IH]; intros k j Hjk.
  - by destruct k.
  - destruct k as [|k], j as [|j]; try done. simpl. apply IH. congruence.
Qed.

Lemma dtype_at_new ds d :
  dtype_at (length ds) (ds ++ [d])%list = d.
Proof. unfold dtype_at. apply nth_middle. Qed.

Lemma positions_existsb label cols i ps :
  positions label cols = i :: ps -> existsb (String.eqb label) cols = true.
Proof.
  unfold positions. generalize 0%nat.
  induction cols as [|c cols IH]; intros k; simpl; [done|].
  destruct (String.eqb c label) eqn:E.
  - intros _. apply String.eqb_eq in E as ->. by rewrite String.eqb_refl.
  - intros Hp. rewrite (IH _ Hp). apply orb_true_r.
Qed.

Lemma positions_from_nil k label cols :
  positions_from k label cols = [] -> ~ In label cols.
Proof.
  revert k. induction cols as [|c cols IH]; intros k; simpl; [tauto|].
  destruct (String.eqb c label) eqn:E; [done|].
  intros Hrest [->|Hin].
  - by rewrite String.eqb_refl in E.
  - by apply (IH _ Hrest).
Qed.

Section TopProducts.
Context `{ArraySum}.

(** The tool, step by step: the column of totals goes into the copy,
    which sits at the end of the store. *)
Lemma get_top_products_run state σ df :
  σ !! data state = Some df ->
  get_top_products state σ
  = match sum_axis1 (sales_frame df) with
    | Raise e => (Raise e, (σ ++ [df])%list)
    | Return totals =>
        (largest ← nlargest 5 "Total Sales" (setitem df "Total Sales" totals);
         top_products ← getitem_list largest ["Product Name"; "Total Sales"];
         Return (RRecords (to_records top_products)),
         (σ ++ [setitem df "Total Sales" totals])%list)
    end.
Proof.
  intros Hdf. unfold get_top_products.
  rewrite (bind_df_copy _ _ _ df Hdf).
  assert (Hcopy : (σ ++ [df])%list !! length σ = Some df)
    by by apply list_lookup_middle.
  rewrite (bind_df_read _ _ _ df Hcopy).
  rewrite (getitem_list_labels df (tl (columns df))) by apply tl_In.
  rewrite bind_lift_return. fold (sales_frame df).
  destruct (sum_axis1 (sales_frame df)) as [totals|e];
    [|by rewrite bind_lift_raise].
  rewrite bind_lift_return.
  rewrite (bind_df_setitem _ _ _ _ _ df Hcopy).
  replace (<[length σ := setitem df "Total Sales" totals]> (σ ++ [df])%list)
    with (σ ++ [setitem df "Total Sales" totals])%list.
  2:{ rewrite (insert_app_r_alt σ [df] (length σ)); [|lia].
      by rewrite Nat.sub_diag. }
  rewrite (bind_df_read _ _ _ (setitem df "Total Sales" totals));
    [|by apply list_lookup_middle].
  destruct (nlargest 5 "Total Sales" (setitem df "Total Sales" totals))
    as [largest|e]; [|by rewrite bind_lift_raise].
  rewrite bind_lift_return. simpl.
  destruct (getitem_list largest ["Product Name"; "Total Sales"]) as [tp|e];
    [|by rewrite bind_lift_raise].
  by rewrite bind_lift_return.
Qed.

(** A column of totals of dtype [object] is one [nlargest] does not
    take. *)
Lemma nlargest_object_totals df totals :
  dtypes_ok df ->
  (exists e,
     nlargest 5 "Total Sales" (setitem df "Total Sales" (DObject, totals))
     = Raise e
     /\ (e = TypeError
         \/ (e = AttributeError
             /\ (2 <= length (positions "Total Sales" (columns df)))%nat))).
Proof.
  intros Hok. unfold setitem, nlargest. cbn [fst snd].
  destruct (positions "Total Sales" (columns df)) as [|i [|j ps]] eqn:Hpos;
    cbn [columns dtypes rows].
  - unfold positions in *. apply positions_from_nil in Hpos.
    rewrite (positions_from_app_new 0 _ _ Hpos). simpl.
    rewrite <- Hok, dtype_at_new. exists TypeError. by split; [|left].
  - rewrite Hpos. cbn [foldr]. rewrite dtype_at_set_object.
    exists TypeError. by split; [|left].
  - rewrite Hpos. exists AttributeError. split; [done|]. right.
    split; [done|]. simpl. lia.
Qed.

Lemma sales_frame_object df :
  In DObject (totalled_dtypes df) -> In DObject (dtypes (sales_frame df)).
Proof. done. Qed.

(** C3.  On a frame with a column of dtype [object] after the first,
    as is every frame read from a sheet with text in its header row,
    [get_top_products] returns nothing: the sum of Python objects fails
    ([TypeError] for a text next to a number, [OverflowError] for an
    [int] beyond the doubles next to a [float]), or it gives a column
    of totals of dtype [object], which [nlargest] rejects with
    [TypeError] (a frame with two columns "Total Sales" fails with
    [AttributeError]).  On rows of [int]s and missing cells the failure
    is the [TypeError] of [nlargest].  So it is on a table of numbers
    read under text headers, on the frame the loader returns for a
    sheet of numbers, and on a table without rows. *)
Theorem C3_top_products_object_totals_rejected
    (state : AgentState) (σ : store) (df : DataFrame) :
  σ !! data state = Some df ->
  dtypes_ok df ->
  In DObject (totalled_dtypes df) ->
  (fst (get_top_products state σ) = Raise TypeError
   \/ fst (get_top_products state σ) = Raise OverflowError
   \/ (fst (get_top_products state σ) = Raise AttributeError
       /\ (2 <= length (positions "Total Sales" (columns df)))%nat))
  /\ ((forall r, In r (rows df) ->
         forallb int_or_missing (totalled_cells df r) = true) ->
      (length (positions "Total Sales" (columns df)) <= 1)%nat ->
      fst (get_top_products state σ) = Raise TypeError)
  /\ fst (get_top_products (ask "top products") [pc_table])
     = Raise TypeError
  /\ (exists loaded,
        @load_sales_report first_seven (Some sales_sheet) = Return loaded
        /\ fst (get_top_products (ask "top products") [loaded])
           = Raise TypeError)
  /\ fst (get_top_products (ask "top products")
            [ {| columns := ["Product Name"; "2021-07"];
                 dtypes := all_object 2;
                 rows := [] |} ])
     = Raise TypeError.
Proof.
  intros Hdf Hok Hobj.
  assert (Hexamples :
    fst (get_top_products (ask "top products") [pc_table]) = Raise TypeError
    /\ (exists loaded,
          @load_sales_report first_seven (Some sales_sheet) = Return loaded
          /\ fst (get_top_products (ask "top products") [loaded])
             = Raise TypeError)
    /\ fst (get_top_products (ask "top products")
              [ {| columns := ["Product Name"; "2021-07"];
                   dtypes := all_object 2;
                   rows := [] |} ])
       = Raise TypeError).
  { split; [reflexivity|]. split; [|reflexivity].
    eexists. split; reflexivity. }
  match goal with
  | |- ?A /\ ?B /\ _ => cut (A /\ B); [intros [Ha Hb]; exact (conj Ha (conj Hb Hexamples))|]
  end.
  clear Hexamples.
  rewrite (get_top_products_run state σ df Hdf).
  rewrite (sum_axis1_object _ (sales_frame_object df Hobj)).
  cbn [rows sales_frame].
  destruct (sum_rows _) as [totals|e] eqn:Hsum; cbn [mbind outcome_bind fst].
  - destruct (nlargest_object_totals df totals Hok) as (e & -> & He).
    cbn [mbind outcome_bind fst]. split.
    + destruct He as [-> | [-> Htwo]]; [by left | right; right; by split].
    + intros _ Hone. destruct He as [-> | [_ Htwo]]; [done | lia].
  - split.
    + apply sum_rows_raises in Hsum as [-> | ->]; [by left | right; by left].
    + intros Hints _. exfalso.
      assert (Hall : Forall (fun cells => exists t, row_sum cells = Return t)
                       (map (fun r => map (fun i => cell_at i r)
                                          (selected df (tl (columns df))))
                            (rows df))).
      { apply List.Forall_forall. intros cells (r & <- & Hr)%in_map_iff.
        eexists. apply row_sum_ints. by apply Hints. }
      clear -Hall Hsum. revert e Hsum.
      induction Hall as [|cells l [t Ht] _ IH]; intros e; simpl; [done|].
      rewrite Ht. simpl. destruct (sum_rows l) eqn:E; simpl; [done|].
      intros _. by eapply IH.
Qed.


End TopProducts.


(* ================================================================== *)
(** * The handlers and the shared frame *)

Section FrameEffect.
Context `{NumRepr} `{SortValues} `{ArraySum}.

Lemma get_product_sales_store state σ :
  snd (get_product_sales state σ) = σ.
Proof.
  unfold get_product_sales.
  destruct (σ !! data state) as [df|] eqn:Hdf.
  - rewrite (bind_df_read _ _ _ df Hdf).
    destruct (getitem df "Product Name") as [names|e];
      [rewrite bind_lift_return | done].
    destruct (List.filter _ names) as [|p ps]; [done|].
    by destruct (product_records df names (p :: ps)).
  - by rewrite bind_df_read_none.
Qed.

Lemma get_monthly_sales_store state σ :
  snd (get_monthly_sales state σ) = σ.
Proof.
  unfold get_monthly_sales.
  destruct (σ !! data state) as [df|] eqn:Hdf.
  - rewrite (bind_df_read _ _ _ df Hdf).
    destruct (List.find _ _) as [month|]; [|done].
    destruct (String.eqb month ""); [done|].
    destruct (getitem_list df ["Product Name"; month]) as [pair|e];
      [rewrite bind_lift_return | done].
    by destruct (sort_values_desc month pair).
  - by rewrite bind_df_read_none.
Qed.

(** The only object the top-products tool writes to is the copy it
    made, the newest object of the store. *)
Lemma get_top_products_store state σ df :
  σ !! data state = Some df ->
  exists copy, snd (get_top_products state σ) = (σ ++ [copy])%list.
Proof.
  intros Hdf.
  assert (Hins : forall x, <[length σ := x]> (σ ++ [df])%list = (σ ++ [x])%list).
  { intros x. rewrite (insert_app_r_alt σ [df] (length σ)); [|lia].
    by rewrite Nat.sub_diag. }
  unfold get_top_products.
  rewrite (bind_df_copy _ _ _ df Hdf).
  rewrite (bind_df_read _ _ _ df); [|by apply list_lookup_middle].
  destruct (getitem_list df (tl (columns df))) as [sales|e];
    [rewrite bind_lift_return | by exists df].
  destruct (sum_axis1 sales) as [totals|e];
    [rewrite bind_lift_return | by exists df].
  rewrite (bind_df_setitem _ _ _ _ _ df); [|by apply list_lookup_middle].
  rewrite Hins.
  exists (setitem df "Total Sales" totals).
  rewrite (bind_df_read _ _ _ (setitem df "Total Sales" totals));
    [|by apply list_lookup_middle].
  destruct (nlargest 5 "Total Sales" (setitem df "Total Sales" totals))
    as [largest|e]; [rewrite bind_lift_return | done].
  by destruct (getitem_list largest ["Product Name"; "Total Sales"]).
Qed.

(** C9. Whatever the question, each of the three tools leaves the frame
    that [state["data"]] refers to as it was, and every other object of
    the store with it: the product-sales and monthly-sales tools do not
    touch the store, and the top-products tool adds one object, its
    copy, which alone receives the "Total Sales" column. *)
Theorem C9_tools_leave_the_table_unchanged
    (state : AgentState) (σ : store) (df : DataFrame) :
  σ !! data state = Some df ->
  snd (get_product_sales state σ) = σ
  /\ snd (get_monthly_sales state σ) = σ
  /\ (exists copy, snd (get_top_products state σ) = (σ ++ [copy])%list)
  /\ snd (get_product_sales state σ) !! data state = Some df
  /\ snd (get_monthly_sales state σ) !! data state = Some df
  /\ snd (get_top_products state σ) !! data state = Some df
  /\ (forall (l : loc) (other : DataFrame),
        σ !! l = Some other ->
        snd (get_top_products state σ) !! l = Some other).
Proof.
  intros Hdf.
  destruct (get_top_products_store state σ df Hdf) as (copy & Htop).
  assert (Hkeep : forall (l : loc) (other : DataFrame),
            σ !! l = Some other ->
            snd (get_top_products state σ) !! l = Some other).
  { intros l other Hl. rewrite Htop. by apply lookup_app_l_Some. }
  rewrite get_product_sales_store, get_monthly_sales_store.
  repeat split; eauto.
Qed.

End FrameEffect.

(* ================================================================== *)
(** * The basic total-sales tool *)


Lemma find_none_iff {A} (f : A -> bool) (l : list A) :
  List.find f l = None <-> forall y, In y l -> f y = false.
Proof.
  induction l as [|y l IH]; simpl; [by split|].
  destruct (f y) eqn:Hy.
  - split; [done|]. intros Hall. specialize (Hall y (or_introl eq_refl)).
    congruence.
  - rewrite IH. split.
    + intros Hall z [<-|Hz]; [done | by apply Hall].
    + intros Hall z Hz. apply Hall. by right.
Qed.

Lemma filter_first {A} (f : A -> bool) (before after : list A) (x : A) :
  (forall y, In y before -> f y = false) -> f x = true ->
  List.filter f (before ++ x :: after) = x :: List.filter f after.
Proof.
  intros Hb Hx. rewrite List.filter_app.
  rewrite (proj2 (filter_nil_iff f before) Hb). simpl. by rewrite Hx.
Qed.

Lemma table_ok_mask df mask : table_ok df -> table_ok (getitem_mask df mask).
Proof.
  intros [Hf Hnd Hshape]. split; [done..|].
  unfold getitem_mask. cbn [rows columns].
  rewrite List.Forall_forall in Hshape |- *.
  intros r (p & <- & Hp)%in_map_iff.
  apply filter_In in Hp as [Hp _]. destruct p as [r' b].
  apply in_combine_l in Hp. by apply Hshape.
Qed.

Section Basic.
Context `{NumRepr} `{ArraySum}.


(** The tool, branch by branch, on a frame whose product names are in
    column [i]. *)
Lemma get_product_total_sales_run data q (i : nat) :
  getitem data "Product Name" = Return (map (cell_at i) (rows data)) ->
  get_product_total_sales data q
  = match List.find (mentioned q) (map (cell_at i) (rows data)) with
    | None => Return (RText "Product not found in the data.")
    | Some p =>
        if negb (truthy p)
        then Return (RText "Product not found in the data.")
        else
          match List.filter (fun r => py_eq (cell_at i r) p) (rows data) with
          | [] => Return (RText "No sales data available for this product.")
          | r :: rs => total_sales_answer p (summed_frame data (r :: rs))
          end
    end.
Proof.
  intros Hnames. destruct (getitem_inv _ _ _ Hnames) as (_ & _ & Hcols).
  unfold get_product_total_sales.
  rewrite Hnames. cbn [mbind outcome_bind].
  fold (mentioned q).
  destruct (List.find (mentioned q) (map (cell_at i) (rows data)))
    as [p|]; [|done].
  destruct (negb (truthy p)); [done|].
  fold (sales_labels data).
  set (product_data :=
         getitem_mask data (eq_scalar (map (cell_at i) (rows data)) p)).
  assert (Hrows : rows product_data
                  = List.filter (fun r => py_eq (cell_at i r) p) (rows data))
    by apply getitem_mask_rows.
  assert (Hempty : empty product_data
                   = match rows product_data with [] => true | _ => false end).
  { unfold empty. change (columns product_data) with (columns data).
    destruct (rows product_data); [done|]. by destruct (columns data). }
  rewrite Hempty, Hrows.
  destruct (List.filter (fun r => py_eq (cell_at i r) p) (rows data))
    as [|r rs] eqn:Hf; [done|].
  rewrite (getitem_list_labels product_data (sales_labels data))
    by apply sales_labels_In.
  cbn [mbind outcome_bind]. rewrite Hrows.
  reflexivity.
Qed.


End Basic.

Section BasicClaims.
Context `{NumRepr} `{ArraySum}.








End BasicClaims.


Section BasicGuards.
Context `{NumRepr} `{ArraySum}.




(** C10, as amended.  When the loop of the basic tool selects a product
    name, the rows the tool then filters by equality with that name are
    none exactly when the name is a missing value: a name that is a
    [str] or a number always finds its own row, so for it the check
    cannot fire; a missing name equals nothing, and the check fires. *)
Theorem C10_no_sales_branch
    (data : DataFrame) (q : string) (names : list cell) (p : cell) :
  getitem data "Product Name" = Return names ->
  List.find (mentioned q) names = Some p ->
  (empty (getitem_mask data (eq_scalar names p)) = true <-> is_nan p = true)
  /\ (is_nan p = false ->
      exists r rs, rows (getitem_mask data (eq_scalar names p)) = r :: rs)
  /\ (is_nan p = true ->
      get_product_total_sales data q
      = Return (RText "No sales data available for this product.")).
Proof.
  intros Hnames Hfind.
  destruct (getitem_inv _ _ _ Hnames) as (i & -> & Hcols).
  assert (Hin : In p (map (cell_at i) (rows data)))
    by (by apply find_some in Hfind as [Hin _]).
  assert (Hrows : rows (getitem_mask data
                          (eq_scalar (map (cell_at i) (rows data)) p)) = []
                  <-> is_nan p = true).
  { rewrite getitem_mask_rows, filter_nil_iff.
    apply in_map_iff in Hin as (r & Hr & Hin). split.
    - intros Hall. specialize (Hall r Hin). rewrite Hr in Hall.
      destruct (is_nan p) eqn:E; [done|]. by rewrite py_eq_refl in Hall.
    - intros ->%is_nan_CNaN x _. apply py_eq_nan_r. }
  assert (Hempty : empty (getitem_mask data
                            (eq_scalar (map (cell_at i) (rows data)) p)) = true
                   <-> is_nan p = true).
  { rewrite <- Hrows. unfold empty.
    change (columns (getitem_mask data _)) with (columns data).
    destruct (rows (getitem_mask data _)); [done|].
    by destruct (columns data). }
  split; [done|]. split.
  - intros Hnan.
    destruct (rows (getitem_mask data _)) as [|r rs] eqn:E; [|by eauto].
    destruct Hrows as [Hfw _]. specialize (Hfw eq_refl). congruence.
  - intros Hnan. unfold get_product_total_sales.
    rewrite Hnames. cbn [mbind outcome_bind]. fold (mentioned q).
    rewrite Hfind. apply is_nan_CNaN in Hnan. subst p. simpl negb. cbv iota.
    by rewrite (proj2 Hempty).
Qed.

End BasicGuards.


(** C10 as stated fails: the row with the blank product name is
    selected by a question that contains "nan", no row equals a missing
    name, and the branch is taken. *)
Lemma C10_blank_name_counterexample :
  List.find (@mentioned decimal_repr "financial summary")
            (map product_name (rows blank_name_table)) = Some CNaN
  /\ empty (getitem_mask blank_name_table
              (eq_scalar (map product_name (rows blank_name_table)) CNaN))
     = true
  /\ @get_product_total_sales decimal_repr left_to_right blank_name_table
       "financial summary"
     = Return (RText "No sales data available for this product.").
Proof. repeat split. Qed.

(* ================================================================== *)
(** * The monthly-sales tool *)








Lemma month_candidate_inv df month :
  In month (month_candidates df) ->
  In month (columns df) /\ month <> "Product Name" /\ month <> "Total Sales".
Proof.
  unfold month_candidates. rewrite filter_In, negb_true_iff, orb_false_iff.
  rewrite !String.eqb_neq. tauto.
Qed.

Section Monthly.
Context `{SortValues}.


Lemma get_monthly_sales_none state σ df :
  σ !! data state = Some df ->
  List.find (fun month => py_in month (question state)) (month_candidates df)
  = None ->
  get_monthly_sales state σ
  = (Return (RText "No specific month mentioned in the question."), σ).
Proof.
  intros Hdf Hfind. unfold get_monthly_sales.
  rewrite (bind_df_read _ _ _ df Hdf). fold (month_candidates df).
  by rewrite Hfind.
Qed.


End Monthly.

Section MonthlyClaims.
Context `{SortValues}.


End MonthlyClaims.


(* ================================================================== *)
(** * The loader's header loop *)

Lemma repair_headers_length seen hs :
  length (repair_headers seen hs) = length hs.
Proof.
  revert seen. induction hs as [|h hs IH]; intros seen; simpl; [done|].
  destruct h; simpl; [by rewrite IH | |];
    destruct (seen !! _); simpl; by rewrite IH.
Qed.

Lemma same_header_key h h' :
  h <> HMissing -> h' <> HMissing ->
  same_header h h' = true <-> header_key h' = header_key h.
Proof.
  intros Hh Hh'. destruct h as [|s|a], h' as [|t|b]; simpl; try done.
  - rewrite String.eqb_eq. split; congruence.
  - rewrite Z.eqb_eq. split; congruence.
Qed.

Lemma times_seen_insert seen h0 h n :
  h0 <> HMissing -> h <> HMissing ->
  seen !! header_key h0 = (match n with O => None | S m => Some m end) ->
  times_seen (<[header_key h0 := n]> seen) h
  = ((if same_header h h0 then 1 else 0) + times_seen seen h)%nat.
Proof.
  intros Hh0 Hh Hseen. unfold times_seen.
  destruct (same_header h h0) eqn:E.
  - apply (same_header_key h h0 Hh Hh0) in E. rewrite <- E.
    rewrite lookup_insert_eq, Hseen. by destruct n.
  - rewrite lookup_insert_ne; [done|].
    intros Hk. apply (same_header_key h h0 Hh Hh0) in Hk. congruence.
Qed.

(** Every header that is not missing gets its own text, followed from
    its second occurrence on by an underscore and the number of
    occurrences before it. *)
Lemma repair_headers_lookup seen hs (i : nat) h :
  hs !! i = Some h -> h <> HMissing ->
  repair_headers seen hs !! i
  = Some (label_after (times_seen seen h + earlier h (take i hs)) h).
Proof.
  revert seen i. induction hs as [|h0 hs IH]; intros seen i Hi Hh; [done|].
  destruct i as [|i]; simpl in Hi.
  - injection Hi as ->. unfold earlier, times_seen. simpl.
    destruct h as [|s|z]; [done|..]; simpl;
      destruct (seen !! _) as [n|]; simpl; by rewrite ?Nat.add_0_r.
  - assert (Hstep : forall n,
              seen !! header_key h0 = (match n with O => None | S m => Some m end) ->
              h0 <> HMissing ->
              repair_headers (<[header_key h0 := n]> seen) hs !! i
              = Some (label_after
                        (times_seen seen h + earlier h (take (S i) (h0 :: hs)))
                        h)).
    { intros n Hn Hh0. rewrite (IH _ i Hi Hh).
      rewrite (times_seen_insert seen h0 h n Hh0 Hh Hn).
      replace ((if same_header h h0 then 1 else 0) + times_seen seen h
               + earlier h (take i hs))%nat
        with (times_seen seen h + earlier h (take (S i) (h0 :: hs)))%nat;
        [done|].
      unfold earlier. cbn [take List.filter].
      destruct (same_header h h0); cbn [length]; lia. }
    destruct h0 as [|s|z].
    + simpl. rewrite (IH seen i Hi Hh). unfold earlier. simpl.
      by destruct h.
    + cbn [repair_headers].
      destruct (seen !! header_key (HStr s)) as [n|] eqn:E.
      * exact (Hstep (S n) eq_refl ltac:(done)).
      * exact (Hstep O eq_refl ltac:(done)).
    + cbn [repair_headers].
      destruct (seen !! header_key (HInt z)) as [n|] eqn:E.
      * exact (Hstep (S n) eq_refl ltac:(done)).
      * exact (Hstep O eq_refl ltac:(done)).
Qed.

Lemma repair_headers_missing seen hs (i : nat) :
  hs !! i = Some HMissing -> repair_headers seen hs !! i = Some "unnamed".
Proof.
  revert seen i. induction hs as [|h0 hs IH]; intros seen i Hi; [done|].
  destruct i as [|i]; simpl in Hi.
  - by injection Hi as ->.
  - destruct h0; simpl; [by apply IH|..];
      destruct (seen !! _); simpl; by apply IH.
Qed.

(** What the header loop does, in general: as many labels as headers;
    "unnamed" for a missing header; for any other header its text,
    with the suffix [_k] at its [k]-th repetition. *)
Lemma new_headers_labels hs (i : nat) h :
  hs !! i = Some h ->
  length (new_headers hs) = length hs
  /\ new_headers hs !! i
     = Some (match h with
             | HMissing => "unnamed"
             | _ => label_after (earlier h (take i hs)) h
             end).
Proof.
  intros Hi. split; [apply repair_headers_length|]. unfold new_headers.
  destruct h as [|s|z].
  - by apply repair_headers_missing.
  - by rewrite (repair_headers_lookup ∅ hs i (HStr s) Hi).
  - by rewrite (repair_headers_lookup ∅ hs i (HInt z) Hi).
Qed.

(** ** The labels the handlers look up head one column at most *)

Lemma pretty_N_char_digit (x : N) : is_digit (pretty_N_char x) = true.
Proof. unfold pretty_N_char. by repeat case_match. Qed.

Lemma pretty_N_go_head (x : N) (s : string) :
  (0 < x)%N ->
  exists c, head_char (pretty_N_go x s) = Some c /\ is_digit c = true.
Proof.
  revert s. induction (N.lt_wf_0 x) as [x _ IH]; intros s Hx.
  rewrite pretty_N_go_step by done.
  destruct (N.eq_0_gt_0_cases (x `div` 10)) as [-> | Hdiv].
  - rewrite pretty_N_go_0. eexists. split; [reflexivity|].
    apply pretty_N_char_digit.
  - apply IH; [|done]. by apply N.div_lt.
Qed.

Lemma pretty_N_head (x : N) :
  exists c, head_char (pretty x) = Some c /\ is_digit c = true.
Proof.
  unfold pretty, pretty_N. case_decide as Hx.
  - by exists (Ascii.ascii_of_nat 48).
  - apply pretty_N_go_head. lia.
Qed.

Lemma pretty_Z_head (z : Z) :
  exists c, head_char (pretty z) = Some c
            /\ (is_digit c = true \/ c = hyphen).
Proof.
  destruct z as [|p|p]; unfold pretty, pretty_Z.
  - exists (Ascii.ascii_of_nat 48). by split; [|left].
  - destruct (pretty_N_head (N.pos p)) as (c & Hc & Hd). exists c. by split; [|left].
  - exists hyphen. by split; [|right].
Qed.

(** A label made for a repeated header holds an underscore. *)
Lemma label_after_repeated (k : nat) (h : header) :
  occurs_in "_" (label_after (S k) h).
Proof. by exists (header_str h), (pretty (S k)). Qed.

(** A label without an underscore, starting with a letter, that is not
    "unnamed", can only come from the first occurrence of the header
    with this very text. *)
Lemma new_headers_plain_label hs (i : nat) (label : string) :
  py_in "_" label = false ->
  (forall c, head_char label = Some c -> is_digit c = false /\ c <> hyphen) ->
  label <> "unnamed" ->
  new_headers hs !! i = Some label ->
  hs !! i = Some (HStr label) /\ earlier (HStr label) (take i hs) = 0%nat.
Proof.
  intros Hplain Hhead Hun Hi.
  assert (Hlt : (i < length hs)%nat).
  { rewrite <- (repair_headers_length ∅ hs). by eapply lookup_lt_Some. }
  destruct (lookup_lt_is_Some_2 hs i Hlt) as [h Hh].
  destruct (new_headers_labels hs i h Hh) as [_ Hlabel].
  rewrite Hi in Hlabel. injection Hlabel as Hlabel.
  destruct h as [|s|z]; [done|..];
    destruct (earlier _ (take i hs)) as [|k] eqn:Hk.
  - simpl in Hlabel. by subst s.
  - pose proof (label_after_repeated k (HStr s)) as Hocc.
    rewrite <- Hlabel in Hocc. apply py_in_spec in Hocc. congruence.
  - simpl in Hlabel. destruct (pretty_Z_head z) as (c & Hc & Hd).
    rewrite <- Hlabel in Hc. destruct (Hhead c Hc) as [Hnd Hnh].
    destruct Hd; congruence.
  - pose proof (label_after_repeated k (HInt z)) as Hocc.
    rewrite <- Hlabel in Hocc. apply py_in_spec in Hocc. congruence.
Qed.

Lemma earlier_positive h (left : list header) :
  In h left -> h <> HMissing -> (0 < earlier h left)%nat.
Proof.
  intros Hin Hh. unfold earlier.
  assert (Hf : In h (List.filter (same_header h) left)).
  { apply filter_In. split; [done|]. by apply same_header_key. }
  destruct (List.filter (same_header h) left); [done|]. simpl. lia.
Qed.

(** In the labels the loader makes, "Product Name" heads one column at
    most, and so does "Total Sales". *)
Lemma new_headers_one_column hs (i j : nat) (label : string) :
  label = "Product Name" \/ label = "Total Sales" ->
  new_headers hs !! i = Some label ->
  new_headers hs !! j = Some label ->
  i = j.
Proof.
  intros Hlabel Hi Hj.
  assert (Hfirst : forall a, new_headers hs !! a = Some label ->
            hs !! a = Some (HStr label)
            /\ earlier (HStr label) (take a hs) = 0%nat).
  { intros a Ha. apply new_headers_plain_label; [..|done];
      destruct Hlabel as [-> | ->]; try done;
      intros c [= <-]; by split. }
  assert (Hlt : forall a b, (a < b)%nat ->
            new_headers hs !! a = Some label ->
            new_headers hs !! b = Some label -> False).
  { intros a b Hab Ha Hb.
    apply Hfirst in Ha as [Ha _]. apply Hfirst in Hb as [_ Hb].
    assert (Hin : In (HStr label) (take b hs)).
    { apply list_elem_of_In, list_elem_of_lookup. exists a.
      by rewrite lookup_take_lt. }
    apply earlier_positive in Hin; [lia | done]. }
  destruct (Nat.lt_trichotomy i j) as [Hij | [Hij | Hij]]; [|done|].
  - destruct (Hlt i j Hij Hi Hj).
  - destruct (Hlt j i Hij Hj Hi).
Qed.

(** C8.  The header loop on three header rows.  A date-like header stays
    as it is written: nothing in the loader turns a column label into
    the form YYYY-MM.  Two missing headers both become "unnamed", and
    the suffixed label of a repeated header can meet a header that is
    already in the sheet: the labels are not always distinct. *)
Theorem C8_headers_not_normalised_nor_distinct :
  new_headers [HStr "Product Name"; HStr "2021-07-01"; HStr "2021-08-01"]
  = ["Product Name"; "2021-07-01"; "2021-08-01"]
  /\ new_headers [HStr "Product Name"; HMissing; HMissing]
     = ["Product Name"; "unnamed"; "unnamed"]
  /\ new_headers [HStr "Q1"; HStr "Q1"; HStr "Q1_1"]
     = ["Q1"; "Q1_1"; "Q1_1"].
Proof. repeat split. Qed.

(* ================================================================== *)
(** * The theorems at concrete tables *)

Lemma three_columns_ok (a b : string) (ds : list dtype)
    (rs : list (list cell)) :
  a <> "Product Name" -> b <> "Product Name" -> a <> b ->
  Forall (fun r => length r = 3%nat) rs ->
  table_ok {| columns := ["Product Name"; a; b]; dtypes := ds; rows := rs |}.
Proof.
  intros Ha Hb Hab Hrs. split; [done| |done].
  cbn [columns]. rewrite !NoDup_cons, !not_elem_of_cons.
  repeat split; try done; try congruence; try apply not_elem_of_nil.
  apply NoDup_nil_2.
Qed.

Lemma pc_table_ok : table_ok pc_table.
Proof. apply three_columns_ok; try done. repeat constructor. Qed.

Lemma gap_table_ok : table_ok gap_table.
Proof. apply three_columns_ok; try done. repeat constructor. Qed.




Lemma C3_top_products_witness :
  [gap_table] !! data (ask "top products") = Some gap_table
  /\ dtypes_ok gap_table
  /\ In DObject (totalled_dtypes gap_table)
  /\ fst (@get_top_products left_to_right (ask "top products") [gap_table])
     = Raise TypeError.
Proof.
  assert (Hobj : In DObject (totalled_dtypes gap_table)) by (by left).
  split; [reflexivity|]. split; [reflexivity|]. split; [exact Hobj|].
  destruct (@C3_top_products_object_totals_rejected left_to_right
              (ask "top products") [gap_table] gap_table
              eq_refl eq_refl Hobj) as (_ & Hints & _).
  apply Hints.
  - intros r [<-|[<-|[<-|[]]]]; reflexivity.
  - simpl. lia.
Defined.





Lemma C9_tools_witness :
  [pc_table] !! data (ask "top products") = Some pc_table
  /\ snd (@get_top_products left_to_right (ask "top products") [pc_table])
     !! 0%nat
     = Some pc_table.
Proof.
  split; [reflexivity|].
  destruct (@C9_tools_leave_the_table_unchanged decimal_repr stable_quicksort
              left_to_right (ask "top products") [pc_table] pc_table eq_refl)
    as (_ & _ & _ & _ & _ & Hkeep & _).
  exact Hkeep.
Defined.

Lemma C10_no_sales_branch_witness :
  getitem blank_name_table "Product Name" = Return [CStr "PC-1000"; CNaN]
  /\ List.find (@mentioned decimal_repr "financial summary")
       [CStr "PC-1000"; CNaN] = Some CNaN
  /\ (empty (getitem_mask blank_name_table
               (eq_scalar [CStr "PC-1000"; CNaN] CNaN)) = true
      <-> is_nan CNaN = true).
Proof.
  split; [reflexivity|]. split; [reflexivity|].
  destruct (@C10_no_sales_branch decimal_repr left_to_right blank_name_table
              "financial summary" [CStr "PC-1000"; CNaN] CNaN
              eq_refl eq_refl) as (Hiff & _).
  exact Hiff.
Defined.

(* ================================================================== *)
(** * Dispatch and final answer *)

Lemma router_run (state : AgentState) (σ : store) (df : DataFrame) intent :
  σ !! data state = Some df ->
  classifies (lower (question state)) (columns df) intent ->
  router state σ = (Return (tool_name intent), σ).
Proof.
  intros Hdf Hint. unfold router. rewrite (bind_df_read _ _ _ df Hdf).
  set (q := lower (question state)) in *.
  destruct Hint as [H1 | N1 H2 | N1 N2 H3 | N1 N2 N3].
  - apply rule_product_decide in H1. by rewrite H1.
  - rewrite <- rule_product_decide in N1. apply not_true_is_false in N1.
    apply rule_top_decide in H2. by rewrite N1, H2.
  - rewrite <- rule_product_decide in N1. apply not_true_is_false in N1.
    rewrite <- rule_top_decide in N2. apply not_true_is_false in N2.
    apply rule_month_decide in H3. by rewrite N1, N2, H3.
  - rewrite <- rule_product_decide in N1. apply not_true_is_false in N1.
    rewrite <- rule_top_decide in N2. apply not_true_is_false in N2.
    rewrite <- rule_month_decide in N3. apply not_true_is_false in N3.
    by rewrite N1, N2, N3.
Qed.

Lemma classifies_exists q cols : exists intent, classifies q cols intent.
Proof.
  destruct (py_in "product" q && (py_in "sales" q || py_in "sell" q)) eqn:E1.
  { exists ProductSales. constructor. by apply rule_product_decide. }
  assert (N1 : ~ rule_product q) by (rewrite <- rule_product_decide; congruence).
  destruct (py_in "top" q && (py_in "product" q || py_in "selling" q)) eqn:E2.
  { exists TopProducts. constructor; [done|]. by apply rule_top_decide. }
  assert (N2 : ~ rule_top q) by (rewrite <- rule_top_decide; congruence).
  destruct (py_in "month" q
            || existsb (fun month => py_in month q)
                       (List.filter re_match_month cols)) eqn:E3.
  { exists MonthlySales. constructor; [done..|]. by apply rule_month_decide. }
  exists GeneralQuery. constructor; [done..|].
  rewrite <- rule_month_decide. congruence.
Qed.

Section Pipeline.
Context `{NumRepr} `{SortValues} `{ArraySum} `{TextGeneration}.

Lemma bind_M_return {A B} (m : M A) (k : A -> M B) (σ σ' : store) (a : A) :
  m σ = (Return a, σ') -> (m ≫= k) σ = k a σ'.
Proof. intros Hm. unfold mbind, M_bind. by rewrite Hm. Qed.

Lemma call_tool_run
    (state : AgentState) (σ : store) (df : DataFrame) (intent : Intent) :
  σ !! data state = Some df ->
  classifies (lower (question state)) (columns df) intent ->
  call_tool state σ
  = (response ← tool_of intent state; mret (response, state)) σ.
Proof.
  intros Hdf Hint. unfold call_tool.
  rewrite (bind_M_return _ _ σ σ (tool_name intent));
    [|by apply (router_run state σ df)].
  by destruct intent.
Qed.

(** X1.  [call_tool] runs the tool of the intent the router's rules
    pick, and no other: on every state, its response and its effect on
    the store are those of that tool, the fallback text generator being
    the tool of the questions no rule applies to; the state comes back
    unchanged. *)
Theorem X1_call_tool_runs_the_routed_tool
    (state : AgentState) (σ : store) (df : DataFrame) (intent : Intent) :
  σ !! data state = Some df ->
  classifies (lower (question state)) (columns df) intent ->
  call_tool state σ
  = (response ← tool_of intent state; mret (response, state)) σ.
Proof.
  apply call_tool_run.
Qed.

Lemma generate_after_update state r :
  generate_final_answer (update_state state r) = render r.
Proof.
  unfold generate_final_answer, update_state. cbn [intermediate_steps].
  by rewrite last_snoc.
Qed.

Lemma run_agent_run (loaded : DataFrame) (q : string) (intent : Intent) :
  classifies (lower q) (columns loaded) intent ->
  run_agent loaded q
  = (r ← fst (tool_of intent (ask q) [loaded]); Return (render r)).
Proof.
  intros Hint. unfold run_agent. fold (ask q).
  unfold mbind at 1. unfold M_bind at 1.
  rewrite (call_tool_run (ask q) [loaded] loaded intent eq_refl Hint).
  unfold mbind at 1. unfold M_bind at 1.
  destruct (tool_of intent (ask q) [loaded]) as [[r|e] σ']; [|done].
  unfold mret, M_ret. cbn [fst mbind outcome_bind].
  by rewrite generate_after_update.
Qed.


(** X3.  A question that goes to the product-sales tool and mentions
    product names, all of them missing values (a blank name prints as
    "nan", which many words contain), is answered with the text [[]]:
    the tool has matches, so it gives no message, and no match has a
    row, so its list is empty. *)
Theorem X3_blank_names_give_empty_list
    (loaded : DataFrame) (q : string) (names : list cell) :
  rule_product (lower q) ->
  getitem loaded "Product Name" = Return names ->
  List.filter (mentioned q) names <> [] ->
  (forall p, In p names -> mentioned q p = true -> is_nan p = true) ->
  run_agent loaded q = Return "[]".
Proof.
  intros Hrule Hnames Hsome Hnan.
  rewrite (run_agent_run loaded q ProductSales); [|by constructor].
  cbn [tool_of].
  rewrite (get_product_sales_run (ask q) [loaded] loaded names eq_refl Hnames).
  cbn [fst question ask mbind outcome_bind].
  destruct (getitem_inv _ _ _ Hnames) as (i & -> & Hcols).
  destruct (List.filter (mentioned q) (map (cell_at i) (rows loaded)))
    as [|p ps] eqn:Hf; [done|].
  rewrite (product_records_nan loaded i (p :: ps)); [done|].
  intros x Hx. rewrite <- Hf in Hx. apply filter_In in Hx as [Hin Hx].
  by apply Hnan.
Qed.

End Pipeline.

(* ================================================================== *)
(** * The router and the monthly tool *)

(** Lowercasing goes character by character. *)
Lemma lower_app (a b : string) : lower (a ++ b) = lower a ++ lower b.
Proof. induction a as [|c a IH]; simpl; [done|]. by rewrite IH. Qed.

Lemma lower_app_inv (s a b : string) :
  lower s = a ++ b ->
  exists s1 s2, s = s1 ++ s2 /\ lower s1 = a /\ lower s2 = b.
Proof.
  revert s. induction a as [|c a IH]; intros s Hs; simpl in Hs.
  - by exists "", s.
  - destruct s as [|c' s]; [done|]. simpl in Hs. injection Hs as Hc Hs.
    destruct (IH s Hs) as (s1 & s2 & -> & H1 & H2).
    exists (String c' s1), s2. simpl. by rewrite Hc, H1.
Qed.

Lemma lower_char_rigid (c : Ascii.ascii) :
  rigid (lower_char c) = true -> lower_char c = c.
Proof. destruct c as [[] [] [] [] [] [] [] []]; vm_compute; congruence. Qed.

Lemma lower_rigid (s t : string) :
  lower s = t -> all_rigid t = true -> s = t.
Proof.
  revert t. induction s as [|c s IH]; intros t <-; simpl; [done|].
  intros [Hc Hs]%andb_prop. rewrite (lower_char_rigid c Hc).
  f_equal. by apply IH.
Qed.

Lemma re_match_month_rigid (col : string) :
  re_match_month col = true -> all_rigid col = true.
Proof.
  intros Hm.
  destruct col as [|y1 [|y2 [|y3 [|y4 [|h [|m1 [|m2 rest]]]]]]]; try discriminate.
  simpl in Hm. rewrite !andb_true_iff in Hm.
  destruct Hm as [[[[[[[H1 H2] H3] H4] Hh] H5] H6] Hr].
  unfold all_rigid, rigid. rewrite H1, H2, H3, H4, Hh, H5, H6. simpl.
  rewrite orb_true_r. simpl.
  destruct rest as [|c [|]]; try done. by rewrite Hr, orb_true_r.
Qed.

(** A period key that occurs in the lowercased question occurs in the
    question as typed. *)
Lemma month_occurs_raw (col q : string) :
  re_match_month col = true ->
  occurs_in col (lower q) -> occurs_in col q.
Proof.
  intros Hm (pre & post & Hq).
  apply lower_app_inv in Hq as (q1 & q23 & -> & _ & Hq).
  apply lower_app_inv in Hq as (q2 & q3 & -> & Hcol & _).
  apply lower_rigid in Hcol as ->; [|by apply re_match_month_rigid].
  by exists q1, q3.
Qed.

Lemma positions_from_label k label cols :
  Forall (fun i => (k <= i)%nat /\ nth (i - k) cols "" = label)
         (positions_from k label cols).
Proof.
  revert k. induction cols as [|c cols IH]; intros k; cbn [positions_from];
    [constructor|].
  assert (Hrest : Forall (fun i => (k <= i)%nat /\ nth (i - k) (c :: cols) "" = label)
                         (positions_from (S k) label cols)).
  { eapply Forall_impl; [apply (IH (S k))|]. cbn beta. intros i [Hle Hnth].
    split; [lia|]. replace (i - k)%nat with (S (i - S k)) by lia. exact Hnth. }
  destruct (String.eqb c label) eqn:E; [|done].
  constructor; [|done]. split; [lia|].
  rewrite Nat.sub_diag. by apply String.eqb_eq in E.
Qed.

Lemma map_constant {A B} (f : A -> B) (b : B) (l : list A) :
  Forall (fun a => f a = b) l -> map f l = repeat b (length l).
Proof. induction 1 as [|a l Ha _ IH]; simpl; [done|]. by rewrite Ha, IH. Qed.

Lemma positions_labels label cols :
  map (fun i => nth i cols "") (positions label cols)
  = repeat label (length (positions label cols)).
Proof.
  apply map_constant. unfold positions.
  eapply Forall_impl; [apply (positions_from_label 0)|]. cbn beta.
  intros i [_ Hnth]. by rewrite Nat.sub_0_r in Hnth.
Qed.

Lemma positions_from_repeat_other k x label (n : nat) cols :
  x <> label ->
  positions_from k label (repeat x n ++ cols)
  = positions_from (n + k) label cols.
Proof.
  intros Hne. revert k. induction n as [|n IH]; intros k; simpl; [done|].
  rewrite (proj2 (String.eqb_neq x label) Hne), IH. f_equal. lia.
Qed.

Lemma positions_from_repeat_same k label (n : nat) :
  length (positions_from k label (repeat label n)) = n.
Proof.
  revert k. induction n as [|n IH]; intros k; simpl; [done|].
  rewrite String.eqb_refl. simpl. by rewrite IH.
Qed.

Section MonthlyExtras.
Context `{SortValues}.

(** X4.  The router and the monthly tool agree on the periods: when the
    router's rule 3 holds because a column that matches the period
    pattern occurs in the lowercased question, that column occurs in
    the question as typed as well, so the monthly tool finds a column
    and does not answer with a message (provided no column has the
    empty label): it returns records or raises. *)
Theorem X4_routed_month_is_found
    (state : AgentState) (σ : store) (df : DataFrame) (col : string) :
  σ !! data state = Some df ->
  In col (columns df) ->
  re_match_month col = true ->
  occurs_in col (lower (question state)) ->
  ~ In "" (columns df) ->
  py_in col (question state) = true
  /\ In col (month_candidates df)
  /\ forall msg, fst (get_monthly_sales state σ) <> Return (RText msg).
Proof.
  intros Hdf Hin Hm Hocc Hempty.
  assert (Hraw : py_in col (question state) = true).
  { apply py_in_spec. by apply month_occurs_raw. }
  assert (Hcand : In col (month_candidates df)).
  { unfold month_candidates. apply filter_In. split; [done|].
    apply negb_true_iff, orb_false_iff.
    split; apply String.eqb_neq; intros ->; discriminate Hm. }
  split; [done|]. split; [done|]. intros msg.
  unfold get_monthly_sales. rewrite (bind_df_read _ _ _ df Hdf).
  fold (month_candidates df).
  destruct (List.find (fun month => py_in month (question state))
              (month_candidates df)) as [month|] eqn:Hfind.
  - apply find_some in Hfind as [Hmonth _].
    apply month_candidate_inv in Hmonth as [Hmonth _].
    assert (Hne : month <> "") by (intros ->; done).
    rewrite (proj2 (String.eqb_neq month "") Hne).
    destruct (getitem_list df ["Product Name"; month]) as [pair|e];
      [rewrite bind_lift_return | done].
    by destruct (sort_values_desc month pair).
  - rewrite find_none_iff in Hfind. specialize (Hfind col Hcand). congruence.
Qed.

(** X5.  When the column the monthly tool finds shares its label with
    another column (the loader gives every missing header the label
    "unnamed"), the tool raises [ValueError]: [sort_values] refuses a
    label that is not unique. *)
Theorem X5_repeated_month_label_raises
    (state : AgentState) (σ : store) (df : DataFrame) (month : string) :
  σ !! data state = Some df ->
  In "Product Name" (columns df) ->
  List.find (fun m => py_in m (question state)) (month_candidates df)
  = Some month ->
  month <> "" ->
  (2 <= length (positions month (columns df)))%nat ->
  fst (get_monthly_sales state σ) = Raise ValueError.
Proof.
  intros Hdf Hpn Hfind Hne Htwice.
  pose proof Hfind as Hcand. apply find_some in Hcand as [Hcand _].
  apply month_candidate_inv in Hcand as (Hin & Hnpn & _).
  unfold get_monthly_sales. rewrite (bind_df_read _ _ _ df Hdf).
  fold (month_candidates df). rewrite Hfind.
  rewrite (proj2 (String.eqb_neq month "") Hne).
  unfold getitem_list. cbn [forallb flat_map].
  rewrite (In_existsb_eqb _ _ Hpn), (In_existsb_eqb _ _ Hin).
  cbn [andb]. rewrite bind_lift_return, app_nil_r, map_app, !positions_labels.
  unfold sort_values_desc. cbn [columns rows].
  unfold positions at 1.
  rewrite positions_from_repeat_other by congruence.
  pose proof (positions_from_repeat_same
                (length (positions "Product Name" (columns df)) + 0) month
                (length (positions month (columns df)))) as Hlen.
  destruct (positions_from _ month (repeat month _)) as [|i [|j ps]];
    simpl in Hlen; [lia | lia | done].
Qed.

End MonthlyExtras.

(* ================================================================== *)
(** * The answers of the advanced agent, case by case *)

Section Answers.
Context `{NumRepr} `{SortValues} `{ArraySum} `{TextGeneration}.

(** X6.  A question no rule of the router applies to is answered by the
    text generator alone: [run_agent] hands it the question as typed
    (not lowercased) with the column labels of the loaded frame, and
    returns its text unchanged, or fails as it fails. *)
Theorem X6_unrouted_question_gets_generated_text
    (loaded : DataFrame) (q : string) :
  ~ rule_product (lower q) ->
  ~ rule_top (lower q) ->
  ~ rule_month (lower q) (columns loaded) ->
  run_agent loaded q = generate_text q (columns loaded).
Proof.
  intros N1 N2 N3.
  rewrite (run_agent_run loaded q GeneralQuery); [|by constructor].
  cbn [tool_of]. unfold general_query.
  rewrite (bind_df_read _ _ _ loaded); [|done].
  cbn [question ask].
  destruct (generate_text q (columns loaded)) as [text|e]; [|done].
  by rewrite bind_lift_return.
Qed.

(** X7.  The word "month" sends a question to the monthly tool even
    when the question names no column: the answer is then the tool's
    message, whatever the table holds. *)
Theorem X7_month_word_without_period
    (loaded : DataFrame) (q : string) :
  ~ rule_product (lower q) ->
  ~ rule_top (lower q) ->
  occurs_in "month" (lower q) ->
  (forall c, In c (month_candidates loaded) -> py_in c q = false) ->
  run_agent loaded q = Return "No specific month mentioned in the question.".
Proof.
  intros N1 N2 Hword Hnone.
  rewrite (run_agent_run loaded q MonthlySales);
    [|constructor; [done..|by left]].
  cbn [tool_of].
  rewrite (get_monthly_sales_none (ask q) [loaded] loaded eq_refl); [done|].
  by apply find_none_iff.
Qed.

(** X8.  The final answer is made from the last step alone: after
    [update_state] has added a tool's result, [generate_final_answer]
    gives the rendering of that result, whatever steps the state held
    before; and [update_state] leaves the question and the frame. *)
Theorem X8_final_answer_from_last_step (state : AgentState) (r : result) :
  generate_final_answer (update_state state r) = render r
  /\ question (update_state state r) = question state
  /\ data (update_state state r) = data state
  /\ forall r', generate_final_answer (update_state (update_state state r) r')
                = render r'.
Proof.
  split; [apply generate_after_update|].
  split; [done|]. split; [done|].
  intros r'. apply generate_after_update.
Qed.

End Answers.

(* ================================================================== *)
(** * The product tools of the two agents *)

Section ProductTools.
Context `{NumRepr} `{SortValues} `{ArraySum}.

Lemma getitem_missing df label :
  ~ In label (columns df) -> getitem df label = Raise KeyError.
Proof.
  intros Hnot. unfold getitem, positions.
  by rewrite (positions_from_notin 0 _ _ Hnot).
Qed.

Lemma existsb_eqb_false label cols :
  ~ In label cols -> existsb (String.eqb label) cols = false.
Proof.
  intros Hnot. apply not_true_is_false. intros (x & Hx & E)%existsb_exists.
  apply String.eqb_eq in E as <-. done.
Qed.

Lemma total_sales_answer_text p sales msg :
  total_sales_answer p sales = Return (RText msg) ->
  msg <> "No sales data available for this product.".
Proof.
  unfold total_sales_answer.
  destruct (sum_axis1 sales) as [[d [|t ts]]|e]; cbn [mbind outcome_bind snd];
    [done| |done].
  destruct (format_2f t) as [amount|e]; cbn [mbind outcome_bind]; [|done].
  by intros [= <-].
Qed.

(** X9.  The advanced and the basic product tool agree on what a match
    is: when the advanced tool finds no product in the question, the
    basic tool finds none either; and when the basic tool answers with
    anything but "Product not found in the data.", the advanced tool
    has found a product too: on a table with a column after the first
    it answers with a list, and on a table with one column only, where
    the basic tool gives a total, it raises [IndexError], as at the
    table that holds the name "Widget" and nothing else. *)
Theorem X9_product_tools_agree_on_matches
    (state : AgentState) (σ : store) (df : DataFrame) :
  σ !! data state = Some df ->
  (fst (get_product_sales state σ)
     = Return (RText "No matching products found in the data.") ->
   get_product_total_sales df (question state)
     = Return (RText "Product not found in the data."))
  /\ (forall msg,
        get_product_total_sales df (question state) = Return (RText msg) ->
        msg <> "Product not found in the data." ->
        (tl (columns df) <> [] ->
         exists records,
           fst (get_product_sales state σ) = Return (RProducts records))
        /\ (tl (columns df) = [] ->
            msg <> "No sales data available for this product." ->
            fst (get_product_sales state σ) = Raise IndexError))
  /\ get_product_total_sales name_only_table "price of widget"
     = Return (RText "Total sales for Widget: 0.00")
  /\ fst (get_product_sales (ask "price of widget") [name_only_table])
     = Raise IndexError.
Proof.
  intros Hdf.
  cut ((fst (get_product_sales state σ)
          = Return (RText "No matching products found in the data.") ->
        get_product_total_sales df (question state)
          = Return (RText "Product not found in the data."))
       /\ (forall msg,
             get_product_total_sales df (question state) = Return (RText msg) ->
             msg <> "Product not found in the data." ->
             (tl (columns df) <> [] ->
              exists records,
                fst (get_product_sales state σ) = Return (RProducts records))
             /\ (tl (columns df) = [] ->
                 msg <> "No sales data available for this product." ->
                 fst (get_product_sales state σ) = Raise IndexError))).
  { intros [Ha Hb]. split; [exact Ha|]. split; [exact Hb|].
    split; reflexivity. }
  destruct (getitem df "Product Name") as [names|e] eqn:Hnames.
  2:{ unfold get_product_sales, get_product_total_sales.
      rewrite (bind_df_read _ _ _ df Hdf), Hnames. by split. }
  rewrite (get_product_sales_run state σ df names Hdf Hnames).
  cbn [fst].
  destruct (getitem_inv _ _ _ Hnames) as (i & -> & Hcols).
  rewrite (get_product_total_sales_run df (question state) i Hnames).
  set (names := map (cell_at i) (rows df)) in *.
  split.
  - destruct (List.filter (mentioned (question state)) names) eqn:Hf.
    + intros _. rewrite filter_nil_iff in Hf. apply find_none_iff in Hf.
      by rewrite Hf.
    + by destruct (product_records df names (c :: l)).
  - intros msg Hmsg Hne.
    destruct (List.find (mentioned (question state)) names) as [p|] eqn:Hfind.
    2:{ injection Hmsg as <-. done. }
    destruct (negb (truthy p)); [by injection Hmsg as <-|].
    apply find_some in Hfind as [Hin Hp].
    assert (Hkept : In p (List.filter (mentioned (question state)) names)).
    { by apply filter_In. }
    assert (Hall : forall x,
              In x (List.filter (mentioned (question state)) names) ->
              In x names).
    { intros x Hx. by apply filter_In in Hx as [Hx _]. }
    destruct (List.filter (mentioned (question state)) names)
      as [|k ks] eqn:Hf; [done|].
    subst names. split.
    + intros Htl.
      destruct (product_records_fst df i (k :: ks) Hcols Htl Hall)
        as (records & -> & _).
      by exists records.
    + intros Htl Hno.
      rewrite (product_records_one_column df i (k :: ks) Hcols Htl Hall);
        [done|].
      exists p. split; [done|].
      destruct (List.filter (fun r => py_eq (cell_at i r) p) (rows df))
        as [|r rs] eqn:Hrows.
      { by injection Hmsg as <-. }
      assert (Hr : In r (List.filter (fun r => py_eq (cell_at i r) p)
                            (rows df))).
      { rewrite Hrows. by left. }
      apply filter_In in Hr as [_ Hr]. by apply py_eq_not_nan in Hr.
Qed.

End ProductTools.

(* ================================================================== *)
(** * What the tools need of the table *)

Lemma nlargest_columns n label df largest :
  nlargest n label df = Return largest -> columns largest = columns df.
Proof.
  unfold nlargest. destruct (positions label (columns df)) as [|i [|j ps]];
    [done| |done].
  destruct (is_object _); [done|]. by intros [= <-].
Qed.

Lemma setitem_columns_In df label values other :
  other <> label ->
  In other (columns (setitem df label values)) -> In other (columns df).
Proof.
  intros Hne. unfold setitem.
  destruct (positions label (columns df)); cbn [columns]; [|done].
  rewrite in_app_iff. intros [Hin|[Heq|[]]]; [done|congruence].
Qed.

Section Requirements.
Context `{NumRepr} `{SortValues} `{ArraySum}.

Lemma get_top_products_no_name state σ df :
  σ !! data state = Some df ->
  ~ In "Product Name" (columns df) ->
  exists e, fst (get_top_products state σ) = Raise e.
Proof.
  intros Hdf Hnot. rewrite (get_top_products_run state σ df Hdf).
  destruct (sum_axis1 (sales_frame df)) as [totals|e]; [|by exists e].
  cbn [fst].
  destruct (nlargest 5 "Total Sales" (setitem df "Total Sales" totals))
    as [largest|e] eqn:Hl; [|by exists e].
  exists KeyError. cbn [mbind outcome_bind]. unfold getitem_list.
  cbn [forallb].
  rewrite existsb_eqb_false; [done|].
  rewrite (nlargest_columns _ _ _ _ Hl).
  intros Hin. apply Hnot.
  by apply (setitem_columns_In df "Total Sales" totals) in Hin.
Qed.

(** X10.  Every tool needs a column labelled "Product Name": on a frame
    without one the product tools of both agents raise [KeyError], the
    monthly tool raises it as soon as it has found its column, and the
    top-products tool never returns. *)
Theorem X10_no_name_column_no_answer
    (state : AgentState) (σ : store) (df : DataFrame) :
  σ !! data state = Some df ->
  ~ In "Product Name" (columns df) ->
  fst (get_product_sales state σ) = Raise KeyError
  /\ get_product_total_sales df (question state) = Raise KeyError
  /\ (forall month,
        List.find (fun m => py_in m (question state)) (month_candidates df)
        = Some month ->
        month <> "" ->
        fst (get_monthly_sales state σ) = Raise KeyError)
  /\ exists e, fst (get_top_products state σ) = Raise e.
Proof.
  intros Hdf Hnot. pose proof (getitem_missing df _ Hnot) as Hget.
  split; [|split; [|split]].
  - unfold get_product_sales. by rewrite (bind_df_read _ _ _ df Hdf), Hget.
  - unfold get_product_total_sales. by rewrite Hget.
  - intros month Hfind Hne. unfold get_monthly_sales.
    rewrite (bind_df_read _ _ _ df Hdf). fold (month_candidates df).
    rewrite Hfind, (proj2 (String.eqb_neq month "") Hne).
    unfold getitem_list. cbn [forallb].
    by rewrite (existsb_eqb_false _ _ Hnot).
  - by apply (get_top_products_no_name state σ df).
Qed.


Lemma format_2f_raises c e :
  format_2f c = Raise e -> e = ValueError \/ e = OverflowError.
Proof.
  destruct c as [s|z|f]; simpl.
  - intros [= <-]. by left.
  - destruct (float_of_int z) as [f|e'] eqn:Hf; simpl; [done|].
    intros [= <-]. right. by apply float_of_int_raises in Hf.
  - done.
Qed.

(** X12.  The basic tool fails in three ways only, once the table has a
    column of names: a text cell cannot be added to a number
    ([TypeError]); a total that is a text cannot be printed with two
    decimals ([ValueError]); and an [int] beyond the range of the
    doubles can neither be added to a [float] nor be printed with two
    decimals ([OverflowError]), as the total [2**1024] of the row
    "Crate".  The lookup of the columns to be summed and the
    [.values[0]] on the sums always succeed. *)
Theorem X12_total_sales_failures
    (data : DataFrame) (q : string) (names : list cell) (e : exn) :
  getitem data "Product Name" = Return names ->
  (get_product_total_sales data q = Raise e ->
   e = TypeError \/ e = ValueError \/ e = OverflowError)
  /\ get_product_total_sales rounding_table "total for crate"
     = Raise OverflowError.
Proof.
  intros Hnames. split; [|by vm_compute].
  destruct (getitem_inv _ _ _ Hnames) as (i & -> & Hcols).
  rewrite (get_product_total_sales_run data q i Hnames).
  destruct (List.find _ _) as [p|]; [|done].
  destruct (negb (truthy p)); [done|].
  destruct (List.filter _ (rows data)) as [|r rs]; [done|].
  unfold total_sales_answer.
  destruct (sum_axis1 (summed_frame data (r :: rs))) as [sums|e'] eqn:Hsums;
    cbn [mbind outcome_bind].
  2:{ intros [= <-]. apply sum_axis1_raises in Hsums as [-> | ->];
        [by left | right; by right]. }
  apply sum_axis1_length in Hsums. cbn [rows summed_frame] in Hsums.
  rewrite length_map in Hsums.
  destruct (snd sums) as [|total rest]; [done|].
  destruct (format_2f total) as [amount|e'] eqn:Hfmt; cbn [mbind outcome_bind];
    [done|].
  intros [= <-]. apply format_2f_raises in Hfmt as [-> | ->];
    right; [by left | by right].
Qed.

End Requirements.

(* ================================================================== *)
(** * The graph of the basic agent *)

Section BasicGraph.
Context `{NumRepr} `{ArraySum}.

(** X13.  The graph of the basic agent adds nothing to its tool:
    [run_agent] returns what [get_product_total_sales] returns and
    raises what it raises; the node "format_response" always finds the
    key ["result"], and the default "No response generated" is never
    used. *)
Theorem X13_basic_graph_is_its_tool (data : DataFrame) (question : string) :
  Basic.run_agent data question = get_product_total_sales data question.
Proof.
  unfold Basic.run_agent, Basic.format_response.
  destruct (get_product_total_sales data question) as [r|e]; [|done].
  cbn [mbind outcome_bind]. rewrite lookup_singleton_eq.
  cbn [mbind outcome_bind]. by rewrite lookup_singleton_eq.
Qed.

End BasicGraph.

(* ================================================================== *)
(** * The plotting agent *)

Lemma py_in_one_char (c : Ascii.ascii) (s : string) :
  py_in (String c "") s = true -> In c (String.list_ascii_of_string s).
Proof.
  induction s as [|d s IH]; simpl; [done|].
  rewrite andb_true_r. intros [Hc|Hs]%orb_prop.
  - left. symmetry. by apply Ascii.eqb_eq.
  - right. by apply IH.
Qed.

Lemma replace_char_gone (old new : Ascii.ascii) (s : string) :
  old <> new -> ~ In old (String.list_ascii_of_string (replace_char old new s)).
Proof.
  intros Hne. induction s as [|c s IH]; simpl; [tauto|].
  intros [Hc|Hs]; [|done].
  destruct (Ascii.eqb c old) eqn:E; [congruence|].
  apply Ascii.eqb_neq in E. congruence.
Qed.

Lemma replace_char_keeps_out (old new c : Ascii.ascii) (s : string) :
  c <> new -> ~ In c (String.list_ascii_of_string s) ->
  ~ In c (String.list_ascii_of_string (replace_char old new s)).
Proof.
  intros Hne. induction s as [|d s IH]; simpl; [tauto|].
  intros Hnot [Hc|Hs].
  - destruct (Ascii.eqb d old); [congruence|]. apply Hnot. by left.
  - apply IH; [|done]. intros Hin. apply Hnot. by right.
Qed.

Lemma replace_char_length (old new : Ascii.ascii) (s : string) :
  String.length (replace_char old new s) = String.length s.
Proof. induction s as [|c s IH]; simpl; [done|]. by rewrite IH. Qed.

Lemma replace_char_app (old new : Ascii.ascii) (a b : string) :
  replace_char old new (a ++ b)
  = replace_char old new a ++ replace_char old new b.
Proof. induction a as [|c a IH]; simpl; [done|]. by rewrite IH. Qed.

Lemma map_flat_map {A B C} (f : B -> C) (g : A -> list B) (l : list A) :
  map f (flat_map g l) = flat_map (fun x => map f (g x)) l.
Proof.
  induction l as [|x l IH]; simpl; [done|]. by rewrite map_app, IH.
Qed.

Lemma positions_one_of_NoDup label cols :
  NoDup cols -> In label cols -> length (positions label cols) = 1%nat.
Proof.
  intros Hnd Hin. apply In_nth_error in Hin as (i & Hi).
  by rewrite (positions_NoDup label cols i Hnd Hi).
Qed.

Lemma flat_map_singletons {A} (g : A -> list A) (l : list A) :
  (forall x, In x l -> g x = [x]) -> flat_map g l = l.
Proof.
  induction l as [|x l IH]; intros Hg; simpl; [done|].
  rewrite (Hg x (or_introl eq_refl)), IH; [done|].
  intros y Hy. apply Hg. by right.
Qed.

Section PlotAgent.
Context `{NumRepr} `{ArraySum} `{Plotting}.

(** X14.  The plotting tool and the basic tool turn a question away in
    the same cases and with the same words: the plotting tool answers
    "Product not found in the data." or "No sales data available for
    this product." (with no plot path) exactly when the basic tool
    gives that message. *)
Theorem X14_plot_and_total_refuse_alike
    (data : DataFrame) (q : string) (msg : string) :
  msg = "Product not found in the data."
  \/ msg = "No sales data available for this product." ->
  Plot.plot_product_sales data q = Return (msg, None)
  <-> get_product_total_sales data q = Return (RText msg).
Proof.
  intros Hmsg. unfold Plot.plot_product_sales, get_product_total_sales.
  destruct (getitem data "Product Name") as [names|e]; [|done].
  cbn [mbind outcome_bind].
  destruct (List.find _ names) as [p|].
  2:{ split; intros [= <-]; done. }
  destruct (negb (truthy p)).
  { split; intros [= <-]; done. }
  destruct (empty (getitem_mask data (eq_scalar names p))).
  { split; intros [= <-]; done. }
  split.
  - destruct (getitem_list _ (List.filter (startswith "202") _))
      as [selected|e]; [|done].
    cbn [mbind outcome_bind]. destruct (rows selected); [done|].
    by destruct (draw_plot _ _ _ _).
  - destruct (getitem_list _ _) as [sales|e]; [|done].
    cbn [mbind outcome_bind]. destruct (sum_axis1 sales) as [[d [|t ts]]|e];
      cbn [mbind outcome_bind snd]; [done| |done].
    destruct (format_2f t) as [amount|e]; [|done].
    cbn [mbind outcome_bind]. intros [= Heq].
    destruct Hmsg as [-> | ->]; discriminate Heq.
Qed.

(** X15.  For a question that mentions a product, the plotting tool
    draws the first product mentioned, from the first row that carries
    its name: the labels drawn are labels of the table that start with
    "202", one value for each, and on a table without repeated labels
    they are all such labels in column order.  The tool answers with
    the product's name and the path of the file, and fails only if the
    drawing fails. *)
Theorem X15_plot_draws_the_first_match
    (data : DataFrame) (q : string) (names : list cell) (p : cell) :
  getitem data "Product Name" = Return names ->
  List.find (mentioned q) names = Some p ->
  truthy p = true ->
  is_nan p = false ->
  exists labels values,
    Plot.plot_product_sales data q
    = (_ ← draw_plot labels values p (Plot.output_path p);
       Return ("Sales plot generated for " ++ py_str p,
               Some (Plot.output_path p)))
    /\ length values = length labels
    /\ Forall (fun l => startswith "202" l = true /\ In l (columns data))
              labels
    /\ (NoDup (columns data) ->
        labels = List.filter (startswith "202") (columns data)).
Proof.
  intros Hnames Hfind Htruthy Hnan.
  destruct (getitem_inv _ _ _ Hnames) as (i & -> & Hcols).
  unfold Plot.plot_product_sales. rewrite Hnames. cbn [mbind outcome_bind].
  change (fun product => py_in (lower (py_str product)) (lower q))
    with (mentioned q).
  rewrite Hfind, Htruthy. cbn [negb].
  assert (Hin : In p (map (cell_at i) (rows data)))
    by (by apply find_some in Hfind as [Hin _]).
  apply in_map_iff in Hin as (r0 & Hr0 & Hin).
  unfold empty. rewrite getitem_mask_rows.
  change (columns (getitem_mask data _)) with (columns data).
  destruct (List.filter (fun r => py_eq (cell_at i r) p) (rows data))
    as [|r rs] eqn:Hrows.
  { rewrite filter_nil_iff in Hrows. specialize (Hrows r0 Hin).
    rewrite Hr0, py_eq_refl in Hrows; done. }
  destruct (columns data) as [|c cols] eqn:Hc; [done|]. rewrite <- Hc.
  change (columns data)
    with (columns (getitem_mask data
                     (eq_scalar (map (cell_at i) (rows data)) p))) at 1.
  pose proof (getitem_list_labels
                (getitem_mask data (eq_scalar (map (cell_at i) (rows data)) p))
                (List.filter (startswith "202") (columns data))) as Hsel.
  change (columns (getitem_mask data _)) with (columns data) in Hsel.
  change (columns (getitem_mask data _)) with (columns data).
  unfold selected in Hsel.
  change (columns (getitem_mask data _)) with (columns data) in Hsel.
  rewrite Hsel by (by intros l [Hl _]%filter_In).
  cbn [mbind outcome_bind rows columns].
  rewrite getitem_mask_rows, Hrows. cbn [map].
  eexists _, _. split; [reflexivity|].
  split; [by rewrite !length_map|]. split.
  - apply List.Forall_forall. intros l (j & <- & Hj)%in_map_iff.
    apply in_flat_map in Hj as (l & Hl & Hj).
    apply filter_In in Hl as [Hl Hstart].
    pose proof (positions_from_label 0 l (columns data)) as Hall.
    rewrite List.Forall_forall in Hall. specialize (Hall j Hj).
    destruct Hall as [_ Hnth]. rewrite Nat.sub_0_r in Hnth.
    by rewrite Hnth.
  - intros Hnd. rewrite map_flat_map.
    apply flat_map_singletons. intros l [Hl _]%filter_In.
    by rewrite positions_labels, (positions_one_of_NoDup l _ Hnd Hl).
Qed.

(** X16.  The name of the plot file has no space and no slash, so the
    file lies in the directory [plots] itself; it is as long as the
    product's name.  The price is that products whose names differ only
    by a space, a slash or an underscore at some place share one file. *)
Theorem X16_plot_file_name (p : cell) :
  py_in " " (Plot.safe_name p) = false
  /\ py_in "/" (Plot.safe_name p) = false
  /\ String.length (Plot.safe_name p) = String.length (py_str p)
  /\ forall a b : string,
       Plot.output_path (CStr (a ++ " " ++ b))
       = Plot.output_path (CStr (a ++ "_" ++ b))
       /\ Plot.output_path (CStr (a ++ "/" ++ b))
          = Plot.output_path (CStr (a ++ "_" ++ b)).
Proof.
  unfold Plot.output_path, Plot.safe_name.
  split; [|split; [|split]].
  - apply not_true_is_false. intros Hin%py_in_one_char. revert Hin.
    apply replace_char_keeps_out; [done|]. by apply replace_char_gone.
  - apply not_true_is_false. intros Hin%py_in_one_char. revert Hin.
    by apply replace_char_gone.
  - by rewrite !replace_char_length.
  - intros a b. cbn [py_str]. by rewrite !replace_char_app.
Qed.

(** X21.  The graph of the plotting agent adds nothing to its tool:
    [run_agent] returns the tool's text and the tool's plot path, and
    raises what the tool raises.  Neither default is ever used: where
    the tool turns the question away the path is [None], not the empty
    text, since the key ["plot_path"] is present. *)
Theorem X21_plot_graph_is_its_tool (data : DataFrame) (question : string) :
  Plot.run_agent data question
  = (out ← Plot.plot_product_sales data question;
     Return (Some (fst out), snd out)).
Proof.
  unfold Plot.run_agent, Plot.format_response, Plot.tool_state.
  destruct (Plot.plot_product_sales data question) as [[text path]|e]; [|done].
  cbn [mbind outcome_bind fst snd].
  rewrite lookup_insert_eq. cbn [mbind outcome_bind].
  rewrite lookup_insert_eq.
  rewrite !(lookup_insert_ne _ _ "plot_path") by done.
  by rewrite !lookup_singleton_eq.
Qed.

End PlotAgent.

(* ================================================================== *)
(** * The loader's pass over the date columns *)

Lemma re_match_month_not_date (col : string) :
  re_match_month col = true -> re_match_date col = false.
Proof.
  intros Hm.
  destruct col as [|y1 [|y2 [|y3 [|y4 [|h [|m1 [|m2 rest]]]]]]]; try discriminate.
  simpl in Hm. rewrite !andb_true_iff in Hm. destruct Hm as [_ Hrest].
  destruct rest as [|c [|d rest]]; [done|done|discriminate].
Qed.

Lemma positions_nth label cols (i : nat) :
  In i (positions label cols) -> nth i cols "" = label.
Proof.
  intros Hin. pose proof (positions_from_label 0 label cols) as Hall.
  rewrite List.Forall_forall in Hall. destruct (Hall i Hin) as [_ Hnth].
  by rewrite Nat.sub_0_r in Hnth.
Qed.

Lemma nth_label_lt (cols : list string) (i : nat) :
  nth i cols "" <> "" -> (i < length cols)%nat.
Proof.
  intros Hne. destruct (Nat.lt_ge_cases i (length cols)) as [|Hge]; [done|].
  by rewrite nth_overflow in Hne.
Qed.

Lemma zip_with_column {A B} (f : A -> B -> A) (g : A -> cell)
    (l : list A) (k : list B) :
  length k = length l ->
  (forall x y, g (f x y) = g x) ->
  map g (zip_with f l k) = map g l.
Proof.
  intros Hlen Hg. revert k Hlen.
  induction l as [|x l IH]; intros [|y k] Hlen; simpl in *; try done.
  rewrite Hg, IH; [done|lia].
Qed.

Lemma zip_with_set_column (i : nat) (l : list (list cell)) (k : list cell) :
  length k = length l ->
  Forall (fun r => (i < length r)%nat) l ->
  map (cell_at i) (zip_with (fun r v => set_at i v r) l k) = k.
Proof.
  intros Hlen Hall. revert k Hlen.
  induction Hall as [|x l Hx _ IH]; intros [|y k] Hlen; simpl in *; try done.
  rewrite set_at_same, IH; [done|lia|done].
Qed.

Lemma positions_once label cols (i : nat) :
  positions label cols = [i] ->
  exists before after,
    cols = (before ++ label :: after)%list
    /\ ~ In label before /\ ~ In label after.
Proof.
  unfold positions. generalize 0%nat.
  induction cols as [|c cols IH]; intros k; simpl; [done|].
  destruct (String.eqb c label) eqn:E.
  - apply String.eqb_eq in E as ->. intros [= _ Hrest].
    exists [], cols. split; [done|]. split; [by intros []|].
    by apply positions_from_nil in Hrest.
  - intros Hrest. destruct (IH _ Hrest) as (before & after & -> & Hb & Ha).
    exists (c :: before), after. split; [done|]. split; [|done].
    intros [->|Hin]; [|done]. by rewrite String.eqb_refl in E.
Qed.

Section LoaderFrame.
Context `{DateConversion}.

(** One turn of the loop: the labels, the number of rows and the length
    of each row stay, and only a column whose label is [col], and heads
    no other column, can change. *)
Lemma normalise_column_frame (df : DataFrame) (col : string) (n : nat) :
  conversion_keeps_length ->
  columns (normalise_column df col) = columns df
  /\ length (rows (normalise_column df col)) = length (rows df)
  /\ (Forall (fun r => length r = n) (rows df) ->
      Forall (fun r => length r = n) (rows (normalise_column df col)))
  /\ (forall j, positions col (columns df) <> [j] ->
        map (cell_at j) (rows (normalise_column df col))
        = map (cell_at j) (rows df)).
Proof.
  intros Hlen. unfold normalise_column.
  destruct (positions col (columns df)) as [|i [|i' ps]] eqn:Hpos; [done| |done].
  destruct (to_year_month (map (cell_at i) (rows df))) as [values|e] eqn:Hconv;
    [|done].
  apply Hlen in Hconv. rewrite length_map in Hconv.
  unfold setitem. rewrite Hpos. cbn [columns rows foldr fst snd].
  split; [done|]. split; [|split].
  - rewrite length_zip_with. lia.
  - intros Hshape. clear Hpos. revert values Hconv.
    induction Hshape as [|r rs Hr _ IH]; intros [|v values] Hv; simpl in *;
      try done.
    constructor; [by rewrite set_at_length | apply IH; lia].
  - intros j Hj. apply zip_with_column; [done|].
    intros r v. apply set_at_other. congruence.
Qed.

Lemma normalise_columns_frame (cols : list string) (df : DataFrame) (n : nat) :
  conversion_keeps_length ->
  columns (fold_left normalise_column cols df) = columns df
  /\ length (rows (fold_left normalise_column cols df)) = length (rows df)
  /\ (Forall (fun r => length r = n) (rows df) ->
      Forall (fun r => length r = n)
             (rows (fold_left normalise_column cols df)))
  /\ (forall j,
        (forall col, In col cols -> positions col (columns df) <> [j]) ->
        map (cell_at j) (rows (fold_left normalise_column cols df))
        = map (cell_at j) (rows df)).
Proof.
  intros Hlen. revert df.
  induction cols as [|col cols IH]; intros df; simpl; [done|].
  destruct (normalise_column_frame df col n Hlen) as (Hc & Hr & Hs & Ho).
  destruct (IH (normalise_column df col)) as (Hc' & Hr' & Hs' & Ho').
  split; [congruence|]. split; [congruence|]. split; [by auto|].
  intros j Hj. rewrite Ho'.
  - apply Ho, Hj. by left.
  - intros col' Hin. rewrite Hc. apply Hj. by right.
Qed.

(** X17.  Whatever the sheet, [load_excel_data] returns a frame whose
    labels are the labels of the header loop, date-like ones included,
    and which has the rows of the sheet below the first.  The pass over
    the date columns leaves every column alone whose label does not
    start with a date or heads several columns; so the column of
    product names and the columns labelled with a period [YYYY-MM] hold
    what the sheet holds. *)
Theorem X17_loader_keeps_labels_and_other_columns (sh : Sheet) :
  conversion_keeps_length ->
  exists df,
    load_sales_report (Some sh) = Return df
    /\ columns df = new_headers (first_row sh)
    /\ length (rows df) = length (body sh)
    /\ (forall j,
          re_match_date (nth j (columns df) "") = false
          \/ (2 <= length (positions (nth j (columns df) "") (columns df)))%nat ->
          map (cell_at j) (rows df) = map (cell_at j) (body sh))
    /\ (forall j,
          nth j (columns df) "" = "Product Name"
          \/ re_match_month (nth j (columns df) "") = true ->
          map (cell_at j) (rows df) = map (cell_at j) (body sh)).
Proof.
  intros Hlen. eexists. split; [reflexivity|].
  set (cols := new_headers (first_row sh)).
  set (df := {| columns := cols; dtypes := read_dtypes sh; rows := body sh |}).
  change (columns df) with cols.
  destruct (normalise_columns_frame (List.filter re_match_date cols) df 0 Hlen)
    as (Hc & Hr & _ & Ho).
  cbn [columns rows df] in Hc, Hr, Ho.
  assert (Hother : forall j,
            re_match_date (nth j cols "") = false
            \/ (2 <= length (positions (nth j cols "") cols))%nat ->
            map (cell_at j)
                (rows (fold_left normalise_column
                         (List.filter re_match_date cols) df))
            = map (cell_at j) (body sh)).
  { intros j Hj. apply Ho. intros col [_ Hdate]%filter_In Hpos.
    assert (nth j cols "" = col) as Hnth
      by (apply positions_nth; rewrite Hpos; by left).
    rewrite Hnth in Hj. destruct Hj as [Hj|Hj]; [congruence|].
    rewrite Hpos in Hj. simpl in Hj. lia. }
  split; [done|]. split; [done|]. rewrite Hc. split; [done|].
  intros j [Hj|Hj]; apply Hother; left.
  - by rewrite Hj.
  - by apply re_match_month_not_date.
Qed.

(** X18.  What the pass over the date columns does: a column whose
    label starts with a date and heads that column only holds, in the
    frame returned, the conversion of the column of the sheet; when the
    conversion fails, it holds the column of the sheet. *)
Theorem X18_loader_converts_date_columns
    (sh : Sheet) (i : nat) (col : string) :
  conversion_keeps_length ->
  rectangular sh ->
  re_match_date col = true ->
  positions col (new_headers (first_row sh)) = [i] ->
  exists df,
    load_excel_data (Some sh) = Return df
    /\ map (cell_at i) (rows df)
       = match to_year_month (map (cell_at i) (body sh)) with
         | Return values => values
         | Raise _ => map (cell_at i) (body sh)
         end.
Proof.
  intros Hlen Hrect Hdate Hpos. eexists. split; [reflexivity|].
  set (cols := new_headers (first_row sh)) in *.
  set (df := {| columns := cols; dtypes := read_dtypes sh; rows := body sh |}).
  cbn [columns].
  destruct (positions_once col cols i Hpos)
    as (before & after & Hsplit & Hb & Ha).
  assert (Hi : (i < length cols)%nat).
  { apply nth_label_lt. rewrite (positions_nth col cols i).
    - intros ->. discriminate Hdate.
    - rewrite Hpos. by left. }
  change (columns df) with cols. rewrite Hsplit at 1.
  rewrite List.filter_app. cbn [List.filter].
  rewrite Hdate, fold_left_app. cbn [fold_left].
  set (df1 := fold_left normalise_column (List.filter re_match_date before) df).
  destruct (normalise_columns_frame (List.filter re_match_date before) df
              (length cols) Hlen) as (Hc1 & Hr1 & Hs1 & Ho1).
  fold df1 in Hc1, Hr1, Hs1, Ho1. cbn [columns rows df] in Hc1, Hr1, Hs1, Ho1.
  assert (Hshape : Forall (fun r => length r = length cols) (body sh)).
  { unfold cols, new_headers. by rewrite repair_headers_length. }
  specialize (Hs1 Hshape).
  assert (Hcol1 : map (cell_at i) (rows df1) = map (cell_at i) (body sh)).
  { apply Ho1. intros c [Hc _]%filter_In Hpc.
    assert (nth i cols "" = c) as Hnth
      by (apply positions_nth; rewrite Hpc; by left).
    rewrite (positions_nth col cols i) in Hnth; [|rewrite Hpos; by left].
    congruence. }
  set (df2 := normalise_column df1 col).
  destruct (normalise_columns_frame (List.filter re_match_date after) df2
              (length cols) Hlen) as (_ & _ & _ & Ho2).
  rewrite Ho2.
  2:{ intros c [Hc _]%filter_In Hpc.
      destruct (normalise_column_frame df1 col (length cols) Hlen)
        as (Hc2 & _).
      fold df2 in Hc2. rewrite Hc2, Hc1 in Hpc.
      assert (nth i cols "" = c) as Hnth
        by (apply positions_nth; rewrite Hpc; by left).
      rewrite (positions_nth col cols i) in Hnth; [|rewrite Hpos; by left].
      congruence. }
  unfold df2, normalise_column. rewrite Hc1, Hpos, Hcol1.
  destruct (to_year_month (map (cell_at i) (body sh))) as [values|e] eqn:Hconv;
    [|done].
  apply Hlen in Hconv. rewrite length_map in Hconv.
  unfold setitem. rewrite Hc1, Hpos. cbn [rows foldr fst snd].
  apply zip_with_set_column; [congruence|].
  eapply Forall_impl; [exact Hs1|]. cbn beta. intros r Hr. lia.
Qed.


End LoaderFrame.

(* ================================================================== *)
(** * The labels of the header loop *)

(** X19.  The label the header loop gives the header at each place: a
    missing header becomes "unnamed"; a header met for the first time
    keeps its text; at its [k]-th repetition it gets the suffix [_k].
    There are as many labels as headers. *)
Theorem X19_header_labels (hs : list header) (i : nat) (h : header) :
  hs !! i = Some h ->
  length (new_headers hs) = length hs
  /\ new_headers hs !! i
     = Some (match h with
             | HMissing => "unnamed"
             | _ => label_after (earlier h (take i hs)) h
             end).
Proof. apply new_headers_labels. Qed.

(** X20.  Whatever the header row, at most one column of the loaded
    frame is labelled "Product Name", and at most one "Total Sales": the
    lookups [data["Product Name"]] of the tools give a column, never a
    frame. *)
Theorem X20_one_name_column (hs : list header) (i j : nat) (label : string) :
  label = "Product Name" \/ label = "Total Sales" ->
  new_headers hs !! i = Some label ->
  new_headers hs !! j = Some label ->
  i = j.
Proof. apply new_headers_one_column. Qed.

(* ================================================================== *)
(** * The further theorems at concrete tables *)

Ltac rule_holds :=
  first [ apply rule_product_decide | apply rule_top_decide
        | apply rule_month_decide | apply py_in_spec ];
  reflexivity.

Ltac rule_fails :=
  let Hr := fresh "Hr" in
  intros Hr;
  first [ apply rule_product_decide in Hr | apply rule_top_decide in Hr
        | apply rule_month_decide in Hr | apply py_in_spec in Hr ];
  discriminate Hr.

Lemma top_products_question :
  classifies (lower "top products") (columns pc_table) TopProducts.
Proof. apply classifies_top; [rule_fails | rule_holds]. Qed.

Lemma first_seven_keeps_length : @conversion_keeps_length first_seven.
Proof. intros cells values [= <-]. by rewrite length_map. Qed.

Lemma X1_call_tool_witness :
  [pc_table] !! data (ask "top products") = Some pc_table
  /\ classifies (lower (question (ask "top products"))) (columns pc_table)
       TopProducts
  /\ @call_tool decimal_repr stable_quicksort left_to_right echo_text
       (ask "top products") [pc_table]
     = (response ← @get_top_products left_to_right (ask "top products");
        mret (response, ask "top products")) [pc_table].
Proof.
  split; [reflexivity|]. split; [apply top_products_question|].
  exact (@X1_call_tool_runs_the_routed_tool decimal_repr stable_quicksort
           left_to_right echo_text (ask "top products") [pc_table] pc_table TopProducts
           eq_refl top_products_question).
Defined.


Lemma X3_blank_names_witness :
  rule_product (lower "financial product sales")
  /\ getitem blank_name_table "Product Name" = Return [CStr "PC-1000"; CNaN]
  /\ List.filter (@mentioned decimal_repr "financial product sales")
       [CStr "PC-1000"; CNaN] <> []
  /\ @run_agent decimal_repr stable_quicksort left_to_right echo_text
       blank_name_table "financial product sales" = Return "[]".
Proof.
  assert (Hrule : rule_product (lower "financial product sales"))
    by rule_holds.
  split; [exact Hrule|]. split; [reflexivity|]. split; [discriminate|].
  apply (@X3_blank_names_give_empty_list decimal_repr stable_quicksort
           left_to_right echo_text blank_name_table "financial product sales"
           [CStr "PC-1000"; CNaN] Hrule eq_refl); [discriminate|].
  intros p [<-|[<-|[]]] Hp; [discriminate Hp | reflexivity].
Defined.

Lemma X4_routed_month_witness :
  [pc_table] !! data (ask "Sales in 2021-07") = Some pc_table
  /\ In "2021-07" (columns pc_table)
  /\ re_match_month "2021-07" = true
  /\ occurs_in "2021-07" (lower (question (ask "Sales in 2021-07")))
  /\ ~ In "" (columns pc_table)
  /\ forall msg,
       fst (@get_monthly_sales stable_quicksort (ask "Sales in 2021-07")
              [pc_table])
       <> Return (RText msg).
Proof.
  assert (Hin : In "2021-07" (columns pc_table)) by (right; by left).
  assert (Hocc : occurs_in "2021-07"
                   (lower (question (ask "Sales in 2021-07"))))
    by rule_holds.
  assert (Hempty : ~ In "" (columns pc_table)).
  { intros [Hc|[Hc|[Hc|[]]]]; discriminate Hc. }
  split; [reflexivity|]. split; [exact Hin|]. split; [reflexivity|].
  split; [exact Hocc|]. split; [exact Hempty|].
  destruct (@X4_routed_month_is_found stable_quicksort
              (ask "Sales in 2021-07") [pc_table] pc_table "2021-07"
              eq_refl Hin eq_refl Hocc Hempty) as (_ & _ & Hmsg).
  exact Hmsg.
Defined.

Lemma X5_repeated_label_witness :
  [repeated_label_table] !! data (ask "show unnamed")
  = Some repeated_label_table
  /\ In "Product Name" (columns repeated_label_table)
  /\ List.find (fun m => py_in m (question (ask "show unnamed")))
       (month_candidates repeated_label_table) = Some "unnamed"
  /\ (2 <= length (positions "unnamed" (columns repeated_label_table)))%nat
  /\ fst (@get_monthly_sales stable_quicksort (ask "show unnamed")
            [repeated_label_table])
     = Raise ValueError.
Proof.
  assert (Hin : In "Product Name" (columns repeated_label_table)) by by left.
  assert (Htwo : (2 <= length (positions "unnamed"
                                 (columns repeated_label_table)))%nat)
    by (vm_compute; lia).
  split; [reflexivity|]. split; [exact Hin|]. split; [reflexivity|].
  split; [exact Htwo|].
  apply (@X5_repeated_month_label_raises stable_quicksort
           (ask "show unnamed") [repeated_label_table] repeated_label_table
           "unnamed" eq_refl Hin eq_refl); [discriminate | exact Htwo].
Defined.

Lemma X6_unrouted_question_witness :
  ~ rule_product (lower "Hello there")
  /\ ~ rule_top (lower "Hello there")
  /\ ~ rule_month (lower "Hello there") (columns pc_table)
  /\ @run_agent decimal_repr stable_quicksort left_to_right echo_text pc_table
       "Hello there"
     = Return "You asked: Hello there".
Proof.
  assert (N1 : ~ rule_product (lower "Hello there")) by rule_fails.
  assert (N2 : ~ rule_top (lower "Hello there")) by rule_fails.
  assert (N3 : ~ rule_month (lower "Hello there") (columns pc_table))
    by rule_fails.
  split; [exact N1|]. split; [exact N2|]. split; [exact N3|].
  exact (@X6_unrouted_question_gets_generated_text decimal_repr
           stable_quicksort left_to_right echo_text pc_table "Hello there" N1 N2 N3).
Defined.

Lemma X7_month_word_witness :
  ~ rule_product (lower "Which MONTH was best?")
  /\ ~ rule_top (lower "Which MONTH was best?")
  /\ occurs_in "month" (lower "Which MONTH was best?")
  /\ @run_agent decimal_repr stable_quicksort left_to_right echo_text pc_table
       "Which MONTH was best?"
     = Return "No specific month mentioned in the question.".
Proof.
  assert (N1 : ~ rule_product (lower "Which MONTH was best?")) by rule_fails.
  assert (N2 : ~ rule_top (lower "Which MONTH was best?")) by rule_fails.
  assert (Hword : occurs_in "month" (lower "Which MONTH was best?"))
    by rule_holds.
  split; [exact N1|]. split; [exact N2|]. split; [exact Hword|].
  apply (@X7_month_word_without_period decimal_repr stable_quicksort
           left_to_right echo_text pc_table "Which MONTH was best?" N1 N2 Hword).
  intros c [<-|[<-|[]]]; reflexivity.
Defined.

Lemma X9_product_tools_witness :
  [pc_table] !! data (ask "sales of anvils") = Some pc_table
  /\ fst (@get_product_sales decimal_repr (ask "sales of anvils") [pc_table])
     = Return (RText "No matching products found in the data.")
  /\ @get_product_total_sales decimal_repr left_to_right pc_table
       "sales of anvils"
     = Return (RText "Product not found in the data.").
Proof.
  split; [reflexivity|]. split; [reflexivity|].
  destruct (@X9_product_tools_agree_on_matches decimal_repr left_to_right
              (ask "sales of anvils") [pc_table] pc_table eq_refl)
    as [Hnone _].
  exact (Hnone eq_refl).
Defined.

Lemma X10_no_name_column_witness :
  [nameless_table] !! data (ask "sales of Anvil") = Some nameless_table
  /\ ~ In "Product Name" (columns nameless_table)
  /\ fst (@get_product_sales decimal_repr (ask "sales of Anvil")
            [nameless_table])
     = Raise KeyError.
Proof.
  assert (Hnot : ~ In "Product Name" (columns nameless_table)).
  { intros [Hc|[Hc|[]]]; discriminate Hc. }
  split; [reflexivity|]. split; [exact Hnot|].
  destruct (@X10_no_name_column_no_answer decimal_repr stable_quicksort
              left_to_right (ask "sales of Anvil") [nameless_table] nameless_table
              eq_refl Hnot) as [Hraise _].
  exact Hraise.
Defined.


Lemma X12_total_sales_failure_witness :
  getitem pending_table "Product Name"
  = Return [CStr "PC-1000"; CStr "PC-2000"]
  /\ @get_product_total_sales decimal_repr left_to_right pending_table
       "total for PC-1000"
     = Raise TypeError
  /\ (TypeError = TypeError \/ TypeError = ValueError
      \/ TypeError = OverflowError).
Proof.
  split; [reflexivity|]. split; [reflexivity|].
  destruct (@X12_total_sales_failures decimal_repr left_to_right pending_table
              "total for PC-1000" [CStr "PC-1000"; CStr "PC-2000"] TypeError
              eq_refl) as [Hfails _].
  exact (Hfails eq_refl).
Defined.

Lemma X14_plot_refusal_witness :
  @Plot.plot_product_sales decimal_repr blank_canvas pc_table "plot anvils"
  = Return ("Product not found in the data.", None)
  <-> @get_product_total_sales decimal_repr left_to_right pc_table
        "plot anvils"
      = Return (RText "Product not found in the data.").
Proof.
  exact (@X14_plot_and_total_refuse_alike decimal_repr left_to_right
           blank_canvas pc_table
           "plot anvils" "Product not found in the data."
           (or_introl eq_refl)).
Defined.

Lemma X15_plot_witness :
  getitem pc_table "Product Name" = Return [CStr "PC-1000"; CStr "PC-1000-X"]
  /\ List.find (@mentioned decimal_repr "plot PC-1000")
       [CStr "PC-1000"; CStr "PC-1000-X"] = Some (CStr "PC-1000")
  /\ exists labels values,
       @Plot.plot_product_sales decimal_repr blank_canvas pc_table
         "plot PC-1000"
       = (_ ← @draw_plot blank_canvas labels values (CStr "PC-1000")
                "plots/PC-1000_sales.png";
          Return ("Sales plot generated for PC-1000",
                  Some "plots/PC-1000_sales.png"))
       /\ length values = length labels.
Proof.
  split; [reflexivity|]. split; [reflexivity|].
  destruct (@X15_plot_draws_the_first_match decimal_repr blank_canvas
              pc_table "plot PC-1000" [CStr "PC-1000"; CStr "PC-1000-X"]
              (CStr "PC-1000") eq_refl eq_refl eq_refl eq_refl)
    as (labels & values & Hrun & Hlen & _).
  by exists labels, values.
Defined.

Lemma X17_loader_witness :
  @conversion_keeps_length first_seven
  /\ exists df,
       @load_sales_report first_seven (Some dated_sheet) = Return df
       /\ columns df = ["Product Name"; "2021-07-01"; "2021-07"]
       /\ length (rows df) = 2%nat.
Proof.
  split; [apply first_seven_keeps_length|].
  destruct (@X17_loader_keeps_labels_and_other_columns first_seven
              dated_sheet first_seven_keeps_length)
    as (df & Hload & Hcols & Hrows & _).
  by exists df.
Defined.

Lemma X18_loader_witness :
  @conversion_keeps_length first_seven
  /\ rectangular dated_sheet
  /\ re_match_date "2021-07-01" = true
  /\ positions "2021-07-01" (new_headers (first_row dated_sheet)) = [1%nat]
  /\ exists df,
       @load_excel_data first_seven (Some dated_sheet) = Return df
       /\ map (cell_at 1) (rows df) = [CStr "2021-07"; CStr "2021-07"].
Proof.
  assert (Hrect : rectangular dated_sheet) by repeat constructor.
  split; [apply first_seven_keeps_length|]. split; [exact Hrect|].
  split; [reflexivity|]. split; [reflexivity|].
  destruct (@X18_loader_converts_date_columns first_seven dated_sheet 1%nat
              "2021-07-01" first_seven_keeps_length Hrect eq_refl eq_refl)
    as (df & Hload & Hcol).
  by exists df.
Defined.

Lemma X19_header_labels_witness :
  [HStr "Q1"; HMissing; HStr "Q1"] !! 2%nat = Some (HStr "Q1")
  /\ new_headers [HStr "Q1"; HMissing; HStr "Q1"] !! 2%nat = Some "Q1_1".
Proof.
  split; [reflexivity|].
  destruct (X19_header_labels [HStr "Q1"; HMissing; HStr "Q1"] 2%nat
              (HStr "Q1") eq_refl) as [_ Hlabel].
  exact Hlabel.
Defined.

Lemma X20_one_name_column_witness :
  new_headers [HStr "Product Name"; HStr "2021-07"] !! 0%nat
  = Some "Product Name"
  /\ 0%nat = 0%nat.
Proof.
  split; [reflexivity|].
  exact (X20_one_name_column [HStr "Product Name"; HStr "2021-07"]
           0%nat 0%nat "Product Name" (or_introl eq_refl) eq_refl eq_refl).
Defined.
